(** * teach-niche: the lessons domain (service, repository, router)

    A shallow embedding of the lesson service
    ([apps/api/src/lessons/service.ts]), the lesson repository
    ([apps/api/src/lessons/repository.ts]), the domain errors
    ([apps/api/src/lessons/errors.ts]) and the parts of the router and of the
    auth middleware that decide who reaches the service.

    Conventions.
    - A JavaScript string is a [string]: one [ascii] per UTF-16 code unit, for
      text whose code units are below 256; [.length] is [String.length].
    - Prices and amounts are integers in minor currency units ([Z]); the
      router's schema admits integers only.
    - [x?: T] and [T | null] are [option T].
    - A method that throws returns [Throw e]; a method that writes to the
      database returns the new database next to its result.
    - Calls to the logger do not change any result and are left out.
    - A number inside an error message stays a number: how JavaScript prints
      it is not modelled. *)

From Stdlib Require Import ZArith String Ascii List Bool Lia.
From stdpp Require Import base option list gmap strings sorting.

Local Open Scope string_scope.
Local Open Scope Z_scope.

(** ** Shared types ([packages/types], [lessons/types.ts]) *)

(** [UserSession.role]: ['STUDENT' | 'INSTRUCTOR' | 'ADMIN']. *)
Inductive Role : Type := STUDENT | INSTRUCTOR | ADMIN.

#[global] Instance Role_eq_dec : EqDecision Role.
Proof. solve_decision. Defined.

(** The role as the string literal the code compares it with. *)
Definition Role_literal (r : Role) : string :=
  match r with
  | STUDENT => "STUDENT"
  | INSTRUCTOR => "INSTRUCTOR"
  | ADMIN => "ADMIN"
  end.

Record UserSession : Type := mkUserSession {
  uid : string;
  email : string;
  name : option string;
  role : Role;
  stripeCustomerId : option string;
  stripeAccountId : option string
}.

(** [PurchaseApiResponse.status]. *)
Inductive PurchaseStatus : Type := PENDING | COMPLETED | FAILED | REFUNDED.

#[global] Instance PurchaseStatus_eq_dec : EqDecision PurchaseStatus.
Proof. solve_decision. Defined.

(** The object [createLesson] is given. [CreateLessonInput] declares the
    first five properties; [published] and [thumbnailUrl] are the two others
    that [LessonCreateData] knows, which the service's [{...input}] forwards
    to the repository when the object carries them. [mkCreateLessonInput]
    builds an object with the declared properties only. *)
Record CreateLessonInput : Type := mkCreateLessonObject {
  input_title : string;
  input_description : option string;
  input_price : Z;
  input_category : option string;
  input_instructorId : string;
  input_published : option bool;
  input_thumbnailUrl : option string
}.

Abbreviation mkCreateLessonInput t d p c i :=
  (mkCreateLessonObject t d p c i None None).

(** [LessonCreateData]: what the repository's [createLesson] stores. *)
Record LessonCreateData : Type := mkLessonCreateData {
  data_title : string;
  data_description : option string;
  data_price : Z;
  data_category : option string;
  data_instructorId : string;
  data_published : option bool;
  data_thumbnailUrl : option string
}.

Record UpdateLessonInput : Type := mkUpdateLessonInput {
  upd_title : option string;
  upd_description : option string;
  upd_price : option Z;
  upd_category : option string;
  upd_published : option bool;
  upd_thumbnailUrl : option string
}.

Record LessonSearchFilters : Type := mkLessonSearchFilters {
  query : option string;
  category : option string;
  minPrice : option Z;
  maxPrice : option Z;
  instructorId : option string;
  published : option bool;
  limit : option Z;
  offset : option Z
}.

Inductive SortDirection : Type := asc | desc.

(** [LessonSortOptions]. The declared type of [field] is a union of five
    literals, but the router hands over whatever [sortBy] held (['rating'],
    ['purchases']), so the field is the string that arrives at run time. *)
Record LessonSortOptions : Type := mkLessonSortOptions {
  field : string;
  direction : SortDirection
}.

(** ** Domain errors ([lessons/errors.ts]) *)

(** An error message: the pieces of its template literal in order, text
    and interpolated strings as text, interpolated numbers as numbers. A
    plain string is a message of one piece. *)
Inductive MessagePart : Type :=
| Text (s : string)
| Number (n : Z).

Record Message : Type := mkMessage { parts : list MessagePart }.

Definition plainMessage (s : string) : Message := mkMessage [Text s].

Coercion plainMessage : string >-> Message.

(** What an error class hands to [AppError]: status, message, code. The
    two-argument [AppError] of the auth middleware carries no code. *)
Record AppError : Type := mkAppError {
  statusCode : Z;
  message : Message;
  code : option string
}.

Inductive LessonError : Type :=
| LessonNotFoundError (lessonId : string)
| LessonNotPublishedError (lessonId : string)
| LessonPermissionDeniedError (lessonId userId : string)
| LessonValidationError (field message : string)
| LessonTitleConflictError (title instructorId : string)
| LessonHasPurchasesError (lessonId : string) (purchaseCount : nat)
| InvalidLessonPriceError (price : Z).

(** The [super(...)] call of each constructor. *)
Definition toAppError (e : LessonError) : AppError :=
  match e with
  | LessonNotFoundError lessonId =>
      mkAppError 404
        ("Lesson with ID " ++ lessonId ++ " not found")
        (Some "LESSON_NOT_FOUND")
  | LessonNotPublishedError lessonId =>
      mkAppError 403
        ("Lesson " ++ lessonId ++ " is not published and cannot be accessed")
        (Some "LESSON_NOT_PUBLISHED")
  | LessonPermissionDeniedError lessonId userId =>
      mkAppError 403
        ("User " ++ userId ++ " does not have permission to modify lesson "
           ++ lessonId)
        (Some "LESSON_PERMISSION_DENIED")
  | LessonValidationError field message =>
      mkAppError 400
        ("Lesson validation failed for field '" ++ field ++ "': " ++ message)
        (Some "LESSON_VALIDATION_ERROR")
  | LessonTitleConflictError title instructorId =>
      mkAppError 409
        ("Instructor " ++ instructorId ++ " already has a lesson titled '"
           ++ title ++ "'")
        (Some "LESSON_TITLE_CONFLICT")
  | LessonHasPurchasesError lessonId purchaseCount =>
      mkAppError 409
        (mkMessage
           [Text ("Cannot delete lesson " ++ lessonId ++ " because it has ");
            Number (Z.of_nat purchaseCount);
            Text " purchases"])
        (Some "LESSON_HAS_PURCHASES")
  | InvalidLessonPriceError price =>
      mkAppError 400
        (mkMessage
           [Text "Invalid lesson price: ";
            Number price;
            Text ". Price must be between $1.00 and $999.99"])
        (Some "INVALID_LESSON_PRICE")
  end.

(** Everything a call can throw: a domain error, an [AppError] raised by a
    middleware, an error of the Prisma client, or the [TypeError] of reading
    a property of [undefined]. *)
Inductive Thrown : Type :=
| DomainError (e : LessonError)
| MiddlewareError (e : AppError)
| PrismaClientError
| TypeError.

Coercion DomainError : LessonError >-> Thrown.

(** A call either returns or throws. *)
Inductive Result (A : Type) : Type :=
| Ok (a : A)
| Throw (e : Thrown).
Arguments Ok {A} a.
Arguments Throw {A} e.

(** [Result] is an error monad; stdpp's [x ← r; k] sequences two steps, the
    second skipped when the first throws. *)
#[global] Instance Result_ret : MRet Result := fun A a => Ok a.
#[global] Instance Result_bind : MBind Result := fun A B k r =>
  match r with
  | Ok a => k a
  | Throw e => Throw e
  end.

Definition isOk {A : Type} (r : Result A) : bool :=
  match r with Ok _ => true | Throw _ => false end.

(** ** String helpers of the JavaScript runtime *)

(** White space and line terminators that [String.prototype.trim] strips,
    among code units below 256: TAB, LF, VT, FF, CR, SP, NBSP. *)
Definition isWhiteSpace (c : ascii) : bool :=
  let n := nat_of_ascii c in
  ((9 <=? n) && (n <=? 13) || (n =? 32) || (n =? 160))%nat.

Fixpoint trimStart (s : list ascii) : list ascii :=
  match s with
  | [] => []
  | c :: r => if isWhiteSpace c then trimStart r else s
  end.

Definition trim (s : string) : string :=
  string_of_list_ascii
    (rev (trimStart (rev (trimStart (list_ascii_of_string s))))).

Definition jsLength (s : string) : Z := Z.of_nat (String.length s).


(** JavaScript truthiness of an optional string and of an optional number:
    [undefined], the empty string and [0] are falsy. *)
Definition truthyString (s : option string) : bool :=
  match s with
  | Some v => negb (String.eqb v "")
  | None => false
  end.

Definition truthyNumber (n : option Z) : bool :=
  match n with
  | Some v => negb (v =? 0)
  | None => false
  end.

(** ** The database ([@teach-niche/database])

    The Prisma schema is not among the sources; the rows carry the columns
    the lesson code reads and writes. *)

Record User : Type := mkUser {
  user_id : string;
  user_name : option string;
  user_email : string
}.

Record Lesson : Type := mkLesson {
  lesson_id : string;
  lesson_title : string;
  lesson_description : option string;
  lesson_price : Z;
  lesson_category : option string;
  lesson_thumbnailUrl : option string;
  lesson_published : bool;
  lesson_instructorId : string;
  lesson_createdAt : Z;
  lesson_updatedAt : Z
}.

Record Purchase : Type := mkPurchase {
  purchase_id : string;
  purchase_userId : string;
  purchase_lessonId : string;
  purchase_amount : Z;
  purchase_platformFee : Z;
  purchase_instructorEarnings : Z;
  purchase_status : PurchaseStatus
}.

Record Review : Type := mkReview {
  review_id : string;
  review_userId : string;
  review_lessonId : string;
  review_rating : Z;
  review_comment : option string
}.

Record Tag : Type := mkTag {
  tag_lessonId : string;
  tag_name : string
}.

(** Lessons and users are keyed by their primary key; purchases, reviews and
    tags are the rows of their tables. *)
Record Db : Type := mkDb {
  lessons : gmap string Lesson;
  users : gmap string User;
  purchases : list Purchase;
  reviews : list Review;
  tags : list Tag
}.

(** [LessonWithRelations]: a lesson row and the relations that the query
    included; a relation that was not included is absent. *)
Record LessonWithRelations : Type := mkLessonWithRelations {
  row : Lesson;
  rel_instructor : option User;
  rel_purchases : option (list Purchase);
  rel_reviews : option (list Review);
  rel_tags : option (list Tag)
}.

(** [LessonQueryOptions]; an option left out reads as [false]. *)
Record LessonQueryOptions : Type := mkLessonQueryOptions {
  includeInstructor : bool;
  includePurchases : bool;
  includeReviews : bool;
  includeTags : bool
}.

(** [Prisma.LessonWhereInput], as [searchLessons] and [countLessons] build
    it. *)
Record PriceRange : Type := mkPriceRange {
  gte : option Z;
  lte : option Z
}.

Record LessonWhereInput : Type := mkLessonWhereInput {
  where_contains : option string;
  where_category : option string;
  where_instructorId : option string;
  where_price : option PriceRange;
  where_published : option bool
}.

(** [Prisma.LessonOrderByWithRelationInput]: one column and its direction. *)
Inductive OrderColumn : Type := by_createdAt | by_price | by_title.

Record LessonOrderBy : Type := mkLessonOrderBy {
  order_column : OrderColumn;
  order_direction : SortDirection
}.

(** The arguments of the [findMany] call that [searchLessons] issues. *)
Record FindManyArgs : Type := mkFindManyArgs {
  args_where : LessonWhereInput;
  args_orderBy : LessonOrderBy;
  args_take : Z;
  args_skip : Z
}.

(** The statistics [getLessonStats] returns. The average is the exact
    quotient, numerator and denominator, that the code then divides. *)
Record LessonStats : Type := mkLessonStats {
  stats_purchaseCount : nat;
  stats_totalRevenue : Z;
  stats_averageRating : option (Z * nat);
  stats_reviewCount : nat
}.

(** ** The lesson repository ([repository.ts]) *)

Module LessonRepository.

Definition purchasesOf (db : Db) (lessonId : string) : list Purchase :=
  filter (fun p => purchase_lessonId p = lessonId) (purchases db).

Definition reviewsOf (db : Db) (lessonId : string) : list Review :=
  filter (fun r => review_lessonId r = lessonId) (reviews db).

Definition tagsOf (db : Db) (lessonId : string) : list Tag :=
  filter (fun t => tag_lessonId t = lessonId) (tags db).

(** [findById]: [findUnique] on the primary key, with the relations the
    options ask for. The included purchases are all the purchases of the
    lesson: the [include] clause has no [where]. *)
Definition findById (db : Db) (lessonId : string)
    (options : LessonQueryOptions) : option LessonWithRelations :=
  l ← lessons db !! lessonId;
  Some {| row := l;
          rel_instructor :=
            if includeInstructor options
            then users db !! lesson_instructorId l else None;
          rel_purchases :=
            if includePurchases options
            then Some (purchasesOf db lessonId) else None;
          rel_reviews :=
            if includeReviews options
            then Some (reviewsOf db lessonId) else None;
          rel_tags :=
            if includeTags options
            then Some (tagsOf db lessonId) else None |}.

(** The [where] clause shared by [searchLessons] and [countLessons]. *)
Definition buildWhere (filters : LessonSearchFilters) : LessonWhereInput :=
  {| where_contains :=
       if truthyString (query filters) then query filters else None;
     where_category :=
       if truthyString (category filters) then category filters else None;
     where_instructorId :=
       if truthyString (instructorId filters)
       then instructorId filters else None;
     where_price :=
       if truthyNumber (minPrice filters) || truthyNumber (maxPrice filters)
       then Some {| gte := if truthyNumber (minPrice filters)
                           then minPrice filters else None;
                    lte := if truthyNumber (maxPrice filters)
                           then maxPrice filters else None |}
       else None;
     where_published := published filters |}.

(** [buildOrderBy]: a [switch] on the field with ['createdAt'] sharing the
    [default] branch. *)
Definition buildOrderBy (sort : LessonSortOptions) : LessonOrderBy :=
  if String.eqb (field sort) "price"
  then {| order_column := by_price; order_direction := direction sort |}
  else if String.eqb (field sort) "title"
  then {| order_column := by_title; order_direction := direction sort |}
  else {| order_column := by_createdAt; order_direction := direction sort |}.

(** The query [searchLessons] hands to Prisma. *)
Definition searchLessonsQuery (filters : LessonSearchFilters)
    (sort : LessonSortOptions) : FindManyArgs :=
  {| args_where := buildWhere filters;
     args_orderBy := buildOrderBy sort;
     args_take := match limit filters with
                  | Some n => if n =? 0 then 20 else n
                  | None => 20
                  end;
     args_skip := match offset filters with
                  | Some n => n
                  | None => 0
                  end |}.

(** [createLesson]: inserts the row and returns it with its instructor.
    The primary key and the clock are Prisma's; they are arguments here.
    [published] is [data.published || false]. Inserting fails when the key
    is taken or the instructor does not exist. *)
Definition createLesson (db : Db) (newId : string) (now : Z)
    (data : LessonCreateData) : option (LessonWithRelations * Db) :=
  match lessons db !! newId, users db !! data_instructorId data with
  | None, Some instructor =>
      let l := {| lesson_id := newId;
                  lesson_title := data_title data;
                  lesson_description := data_description data;
                  lesson_price := data_price data;
                  lesson_category := data_category data;
                  lesson_thumbnailUrl := data_thumbnailUrl data;
                  lesson_published := default false (data_published data);
                  lesson_instructorId := data_instructorId data;
                  lesson_createdAt := now;
                  lesson_updatedAt := now |} in
      Some ({| row := l; rel_instructor := Some instructor;
               rel_purchases := None; rel_reviews := None;
               rel_tags := None |},
            {| lessons := <[newId := l]> (lessons db);
               users := users db; purchases := purchases db;
               reviews := reviews db; tags := tags db |})
  | _, _ => None
  end.

(** The rows that depend on a lesson: its purchases, its reviews and its
    tags. The schema is not among the sources; the schema preview of the
    database comparison script declares [lesson_id ... REFERENCES
    lessons(id)] for purchases and reviews with no cascade, and the tests
    remove purchases and reviews before lessons. *)
Definition hasDependencies (db : Db) (lessonId : string) : bool :=
  negb (bool_decide (purchasesOf db lessonId = []
                     /\ reviewsOf db lessonId = []
                     /\ tagsOf db lessonId = [])).

(** The database once the lesson's row is gone. *)
Definition withoutLesson (db : Db) (lessonId : string) : Db :=
  {| lessons := delete lessonId (lessons db);
     users := users db; purchases := purchases db;
     reviews := reviews db; tags := tags db |}.

(** [deleteLesson]: Prisma's [delete] on the primary key; it fails "when
    lesson doesn't exist or has dependencies", and removes the row
    otherwise. *)
Definition deleteLesson (db : Db) (lessonId : string) : option (Lesson * Db) :=
  l ← lessons db !! lessonId;
  if hasDependencies db lessonId then None
  else Some (l, withoutLesson db lessonId).

(** [getLessonStats]: the purchase count is taken over the purchases whose
    status is [COMPLETED]. *)
Definition getLessonStats (db : Db) (lessonId : string) : LessonStats :=
  let purchases :=
    filter (fun p => purchase_status p = COMPLETED)
           (purchasesOf db lessonId) in
  let reviews := reviewsOf db lessonId in
  let purchaseCount := length purchases in
  let totalRevenue :=
    foldl (fun sum p => sum + purchase_amount p) 0 purchases in
  let reviewCount := length reviews in
  let averageRating :=
    if (0 <? reviewCount)%nat
    then Some (foldl (fun sum r => sum + review_rating r) 0 reviews,
               reviewCount)
    else None in
  {| stats_purchaseCount := purchaseCount;
     stats_totalRevenue := totalRevenue;
     stats_averageRating := averageRating;
     stats_reviewCount := reviewCount |}.

(** The [orderBy: { createdAt: 'desc' }] of [findByInstructorId]: newer
    lessons come first. *)
Definition newerFirst (a b : string * Lesson) : Prop :=
  lesson_createdAt b.2 <= lesson_createdAt a.2.

#[global] Instance newerFirst_dec (a b : string * Lesson) :
  Decision (newerFirst a b).
Proof. unfold newerFirst. apply _. Defined.

(** The relations [findByInstructorId] includes with each row: the
    instructor, the purchases and the reviews, not the tags. *)
Definition withListedRelations (db : Db) (kl : string * Lesson)
    : LessonWithRelations :=
  {| row := kl.2;
     rel_instructor := users db !! lesson_instructorId kl.2;
     rel_purchases := Some (purchasesOf db kl.1);
     rel_reviews := Some (reviewsOf db kl.1);
     rel_tags := None |}.

(** [findByInstructorId]: the lessons of one instructor, only the published
    ones unless [includeUnpublished], newest first. The order among lessons
    created at the same instant is the database's; here it is the one
    the sort leaves them in. *)
Definition findByInstructorId (db : Db) (instructorId : string)
    (includeUnpublished : bool) : list LessonWithRelations :=
  withListedRelations db <$>
    merge_sort newerFirst
      (filter (fun kl => lesson_instructorId kl.2 = instructorId
                         /\ (includeUnpublished = true
                             \/ lesson_published kl.2 = true))
              (map_to_list (lessons db))).

(** The row [updateLesson] writes: the fields that [data] gives replace the
    old ones, [updatedAt] is the clock's. *)
Definition updatedRow (l : Lesson) (data : UpdateLessonInput) (now : Z)
    : Lesson :=
  {| lesson_id := lesson_id l;
     lesson_title := default (lesson_title l) (upd_title data);
     lesson_description :=
       match upd_description data with
       | Some d => Some d
       | None => lesson_description l
       end;
     lesson_price := default (lesson_price l) (upd_price data);
     lesson_category :=
       match upd_category data with
       | Some c => Some c
       | None => lesson_category l
       end;
     lesson_thumbnailUrl :=
       match upd_thumbnailUrl data with
       | Some t => Some t
       | None => lesson_thumbnailUrl l
       end;
     lesson_published := default (lesson_published l) (upd_published data);
     lesson_instructorId := lesson_instructorId l;
     lesson_createdAt := lesson_createdAt l;
     lesson_updatedAt := now |}.

(** [updateLesson]: Prisma's [update] on the primary key, returning the row
    with its instructor; it fails when no row has the key. *)
Definition updateLesson (db : Db) (now : Z) (lessonId : string)
    (data : UpdateLessonInput) : option (LessonWithRelations * Db) :=
  l ← lessons db !! lessonId;
  Some ({| row := updatedRow l data now;
           rel_instructor := users db !! lesson_instructorId l;
           rel_purchases := None; rel_reviews := None; rel_tags := None |},
        {| lessons := <[lessonId := updatedRow l data now]> (lessons db);
           users := users db; purchases := purchases db;
           reviews := reviews db; tags := tags db |}).

(** [existsById]: the number of rows with the key is above zero. *)
Definition existsById (db : Db) (lessonId : string) : bool :=
  let count :=
    length (filter (fun kl : string * Lesson => kl.1 = lessonId)
                   (map_to_list (lessons db))) in
  bool_decide (0 < count)%nat.

(** [isLessonOwnedByInstructor]: the number of rows with the key and the
    instructor is above zero. *)
Definition isLessonOwnedByInstructor (db : Db) (lessonId : string)
    (instructorId : string) : bool :=
  let count :=
    length (filter (fun kl : string * Lesson =>
                      kl.1 = lessonId
                      /\ lesson_instructorId kl.2 = instructorId)
                   (map_to_list (lessons db))) in
  bool_decide (0 < count)%nat.

(** [findByIds]: the lessons whose key is among [lessonIds], each with the
    relations the options ask for. Keys that no lesson has are passed over;
    the order is the database's. *)
Definition findByIds (db : Db) (lessonIds : list string)
    (options : LessonQueryOptions) : list LessonWithRelations :=
  (fun kl : string * Lesson =>
     {| row := kl.2;
        rel_instructor :=
          if includeInstructor options
          then users db !! lesson_instructorId kl.2 else None;
        rel_purchases :=
          if includePurchases options
          then Some (purchasesOf db kl.1) else None;
        rel_reviews :=
          if includeReviews options
          then Some (reviewsOf db kl.1) else None;
        rel_tags :=
          if includeTags options then Some (tagsOf db kl.1) else None |})
  <$> filter (fun kl : string * Lesson => kl.1 ∈ lessonIds)
             (map_to_list (lessons db)).

End LessonRepository.

(** ** Service DTOs ([lessons/types.ts]) *)

Record InstructorDto : Type := mkInstructorDto {
  instructor_id : string;
  instructor_name : option string;
  instructor_email : string
}.

Record LessonWithInstructor : Type := mkLessonWithInstructor {
  dto_id : string;
  dto_title : string;
  dto_description : option string;
  dto_price : Z;
  dto_category : option string;
  dto_thumbnailUrl : option string;
  dto_published : bool;
  dto_createdAt : Z;
  dto_updatedAt : Z;
  dto_instructor : InstructorDto
}.

Record LessonWithStats : Type := mkLessonWithStats {
  base : LessonWithInstructor;
  stats : LessonStats;
  dto_tags : list string
}.

Record UserReview : Type := mkUserReview {
  userReview_id : string;
  userReview_rating : Z;
  userReview_comment : option string
}.

Record UserContext : Type := mkUserContext {
  isPurchased : bool;
  hasAccess : bool;
  userReview : option UserReview
}.

Record LessonWithUserContext : Type := mkLessonWithUserContext {
  lesson : LessonWithStats;
  userContext : option UserContext
}.

Record LessonSummary : Type := mkLessonSummary {
  summary_id : string;
  summary_title : string;
  summary_price : Z;
  summary_thumbnailUrl : option string;
  summary_instructor : string * option string;
  summary_purchaseCount : nat;
  summary_averageRating : option (Z * nat)
}.

(** ** The lesson service ([service.ts]) *)

Module LessonService.

(** [validatePrice]: throws when [price < 100 || price > 99999]. *)
Definition validatePrice (price : Z) : Result unit :=
  if (price <? 100) || (price >? 99999)
  then Throw (InvalidLessonPriceError price)
  else Ok tt.

(** [validateLessonInput]. [!input.title] holds for the empty string;
    [input.description && ...] skips an absent or empty description. *)
Definition validateLessonInput (input : CreateLessonInput) : Result unit :=
  if negb (truthyString (Some (input_title input)))
     || (jsLength (trim (input_title input)) =? 0)
  then Throw (LessonValidationError "title" "Title is required")
  else
  if jsLength (input_title input) >? 200
  then Throw (LessonValidationError "title"
                "Title must be 200 characters or less")
  else
  if truthyString (input_description input)
     && (jsLength (default "" (input_description input)) >? 2000)
  then Throw (LessonValidationError "description"
                "Description must be 2000 characters or less")
  else validatePrice (input_price input).

(** [transformToLessonWithInstructor]; reading [rawLesson.instructor.id]
    throws when the relation was not loaded. *)
Definition transformToLessonWithInstructor (rawLesson : LessonWithRelations)
    : Result LessonWithInstructor :=
  match rel_instructor rawLesson with
  | None => Throw TypeError
  | Some instructor =>
      Ok {| dto_id := lesson_id (row rawLesson);
            dto_title := lesson_title (row rawLesson);
            dto_description := lesson_description (row rawLesson);
            dto_price := lesson_price (row rawLesson);
            dto_category := lesson_category (row rawLesson);
            dto_thumbnailUrl := lesson_thumbnailUrl (row rawLesson);
            dto_published := lesson_published (row rawLesson);
            dto_createdAt := lesson_createdAt (row rawLesson);
            dto_updatedAt := lesson_updatedAt (row rawLesson);
            dto_instructor :=
              {| instructor_id := user_id instructor;
                 instructor_name := user_name instructor;
                 instructor_email := user_email instructor |} |}
  end.

(** [transformToLessonWithStats]. *)
Definition transformToLessonWithStats (rawLesson : LessonWithRelations)
    (stats : LessonStats) : Result LessonWithStats :=
  base ← transformToLessonWithInstructor rawLesson;
  Ok {| base := base;
        stats := stats;
        dto_tags := match rel_tags rawLesson with
                    | Some ts => map tag_name ts
                    | None => []
                    end |}.

(** [transformToLessonSummary]. *)
Definition transformToLessonSummary (rawLesson : LessonWithRelations)
    : Result LessonSummary :=
  let purchaseCount := length (default [] (rel_purchases rawLesson)) in
  let reviews := default [] (rel_reviews rawLesson) in
  let averageRating :=
    if (0 <? length reviews)%nat
    then Some (foldl (fun sum r => sum + review_rating r) 0 reviews,
               length reviews)
    else None in
  match rel_instructor rawLesson with
  | None => Throw TypeError
  | Some instructor =>
      Ok {| summary_id := lesson_id (row rawLesson);
            summary_title := lesson_title (row rawLesson);
            summary_price := lesson_price (row rawLesson);
            summary_thumbnailUrl := lesson_thumbnailUrl (row rawLesson);
            summary_instructor := (user_id instructor, user_name instructor);
            summary_purchaseCount := purchaseCount;
            summary_averageRating := averageRating |}
  end.

(** [buildUserContext]: the caller's purchase and review of the lesson, each
    found by its unique pair of user and lesson. *)
Definition buildUserContext (db : Db) (lessonId : string)
    (userSession : UserSession) : UserContext :=
  let purchase :=
    head (filter (fun p => purchase_userId p = uid userSession
                           /\ purchase_lessonId p = lessonId)
                 (purchases db)) in
  let review :=
    head (filter (fun r => review_userId r = uid userSession
                           /\ review_lessonId r = lessonId)
                 (reviews db)) in
  let isPurchased :=
    match purchase with
    | Some p => bool_decide (purchase_status p = COMPLETED)
    | None => false
    end in
  let hasAccess := isPurchased in
  {| isPurchased := isPurchased;
     hasAccess := hasAccess;
     userReview :=
       match review with
       | Some r => Some {| userReview_id := review_id r;
                           userReview_rating := review_rating r;
                           userReview_comment := review_comment r |}
       | None => None
       end |}.

(** [createLesson]: validation, then the role gate, then the insert. *)
Definition createLesson (db : Db) (newId : string) (now : Z)
    (input : CreateLessonInput) (instructorSession : UserSession)
    : Result LessonWithInstructor * Db :=
  match validateLessonInput input with
  | Throw e => (Throw e, db)
  | Ok _ =>
      if negb (bool_decide (role instructorSession = INSTRUCTOR))
      then (Throw (LessonPermissionDeniedError "create"
                     (uid instructorSession)), db)
      else
        let lessonData :=
          {| data_title := input_title input;
             data_description := input_description input;
             data_price := input_price input;
             data_category := input_category input;
             data_instructorId := uid instructorSession;
             data_published := input_published input;
             data_thumbnailUrl := input_thumbnailUrl input |} in
        match LessonRepository.createLesson db newId now lessonData with
        | None => (Throw PrismaClientError, db)
        | Some (rawLesson, db') =>
            (transformToLessonWithInstructor rawLesson, db')
        end
  end.

(** [getLessonById]: the lookup, the visibility gate for an unpublished
    lesson, then the statistics and the caller's context. *)
Definition getLessonById (db : Db) (lessonId : string)
    (userSession : option UserSession) : Result LessonWithUserContext :=
  match LessonRepository.findById db lessonId
          {| includeInstructor := true; includePurchases := true;
             includeReviews := true; includeTags := true |} with
  | None => Throw (LessonNotFoundError lessonId)
  | Some rawLesson =>
      _ ← (if negb (lesson_published (row rawLesson))
           then
             let canAccess :=
               match userSession with
               | Some userSession =>
                   bool_decide (lesson_instructorId (row rawLesson)
                                = uid userSession)
                   || bool_decide (role userSession = ADMIN)
               | None => false
               end in
             if negb canAccess
             then Throw (LessonNotPublishedError lessonId)
             else Ok tt
           else Ok tt);
      let stats := LessonRepository.getLessonStats db lessonId in
      lesson ← transformToLessonWithStats rawLesson stats;
      match userSession with
      | Some userSession =>
          let userContext := buildUserContext db lessonId userSession in
          Ok {| lesson := lesson; userContext := Some userContext |}
      | None => Ok {| lesson := lesson; userContext := None |}
      end
  end.

(** The filters [searchLessons] searches with: the caller's filters with
    [published] overridden unless the caller is an instructor. *)
Definition searchFilters (filters : LessonSearchFilters)
    (userSession : option UserSession) : LessonSearchFilters :=
  {| query := query filters;
     category := category filters;
     minPrice := minPrice filters;
     maxPrice := maxPrice filters;
     instructorId := instructorId filters;
     published :=
       if bool_decide (role <$> userSession = Some INSTRUCTOR)
       then published filters else Some true;
     limit := limit filters;
     offset := offset filters |}.

(** [searchLessons]. Prisma answers the two queries; what it answers is
    given by [findMany] and [count]. *)
Definition searchLessons
    (findMany : FindManyArgs -> list LessonWithRelations)
    (count : LessonWhereInput -> Z)
    (filters : LessonSearchFilters) (sort : LessonSortOptions)
    (userSession : option UserSession) : Result (list LessonSummary * Z) :=
  let searchFilters := searchFilters filters userSession in
  let rawLessons :=
    findMany (LessonRepository.searchLessonsQuery searchFilters sort) in
  let total := count (LessonRepository.buildWhere searchFilters) in
  lessons ← mapM transformToLessonSummary rawLessons;
  Ok (lessons, total).

(** [deleteLesson]: the lookup, the permission check, the purchase check,
    then the delete. *)
Definition deleteLesson (db : Db) (lessonId : string)
    (userSession : UserSession) : Result bool * Db :=
  match LessonRepository.findById db lessonId
          {| includeInstructor := true; includePurchases := true;
             includeReviews := false; includeTags := false |} with
  | None => (Throw (LessonNotFoundError lessonId), db)
  | Some existingLesson =>
      if negb (bool_decide (lesson_instructorId (row existingLesson)
                            = uid userSession))
         && negb (bool_decide (role userSession = ADMIN))
      then (Throw (LessonPermissionDeniedError lessonId (uid userSession)),
            db)
      else
        let purchaseCount :=
          match rel_purchases existingLesson with
          | Some ps => length ps
          | None => 0%nat
          end in
        if (0 <? purchaseCount)%nat
        then (Throw (LessonHasPurchasesError lessonId purchaseCount), db)
        else
          match LessonRepository.deleteLesson db lessonId with
          | None => (Throw PrismaClientError, db)
          | Some (_, db') => (Ok true, db')
          end
  end.

(** [updateLesson]: the lookup, the permission check, the price check when
    a price is given, then the update. *)
Definition updateLesson (db : Db) (now : Z) (lessonId : string)
    (input : UpdateLessonInput) (userSession : UserSession)
    : Result LessonWithInstructor * Db :=
  match LessonRepository.findById db lessonId
          {| includeInstructor := true; includePurchases := false;
             includeReviews := false; includeTags := false |} with
  | None => (Throw (LessonNotFoundError lessonId), db)
  | Some existingLesson =>
      if negb (bool_decide (lesson_instructorId (row existingLesson)
                            = uid userSession))
         && negb (bool_decide (role userSession = ADMIN))
      then (Throw (LessonPermissionDeniedError lessonId (uid userSession)),
            db)
      else
        match (match upd_price input with
               | Some price => validatePrice price
               | None => Ok tt
               end) with
        | Throw e => (Throw e, db)
        | Ok _ =>
            match LessonRepository.updateLesson db now lessonId input with
            | None => (Throw PrismaClientError, db)
            | Some (rawLesson, db') =>
                (transformToLessonWithInstructor rawLesson, db')
            end
        end
  end.

(** [getLessonsByInstructor]: unpublished lessons are listed only when asked
    for by the instructor or by an administrator; every lesson comes with
    its statistics. *)
Definition getLessonsByInstructor (db : Db) (instructorId : string)
    (includeUnpublished : bool) (userSession : option UserSession)
    : Result (list LessonWithStats) :=
  let canSeeUnpublished :=
    includeUnpublished
    && match userSession with
       | Some userSession =>
           bool_decide (uid userSession = instructorId)
           || bool_decide (role userSession = ADMIN)
       | None => false
       end in
  let rawLessons :=
    LessonRepository.findByInstructorId db instructorId canSeeUnpublished in
  mapM (fun rawLesson =>
          let stats :=
            LessonRepository.getLessonStats db (lesson_id (row rawLesson)) in
          transformToLessonWithStats rawLesson stats)
       rawLessons.

End LessonService.

(** ** The auth middleware ([auth/middleware.ts]) *)

(** [requireAuth]: the bearer token must be there, and not empty, and must
    verify; the decoded token becomes [req.user]. Verification is Firebase's
    and is an argument. *)
Definition requireAuth (verifyIdToken : string -> option UserSession)
    (token : option string) : Result UserSession :=
  if negb (truthyString token)
  then Throw (MiddlewareError
                (mkAppError 401 "No authentication token provided" None))
  else
    match verifyIdToken (default "" token) with
    | Some decodedToken => Ok decodedToken
    | None =>
        Throw (MiddlewareError
                 (mkAppError 401 "Invalid authentication token" None))
    end.

(** [requireRole(roles)]: [req.user] must be there and its role must be one
    of [roles]. A session always has a role, so the fallback to ['student']
    for a missing one never applies. *)
Definition requireRole (roles : list string) (user : option UserSession)
    : Result unit :=
  match user with
  | None =>
      Throw (MiddlewareError (mkAppError 401 "Authentication required" None))
  | Some user =>
      let userRole := Role_literal (role user) in
      if negb (bool_decide (userRole ∈ roles))
      then Throw (MiddlewareError
                    (mkAppError 403 "Insufficient permissions" None))
      else Ok tt
  end.

(** ** The lessons router ([lessons/router.ts], [lessons/validators.ts]) *)

(** [CreateLessonApiInput]: the body of [POST /api/lessons]. *)
Record CreateLessonApiInput : Type := mkCreateLessonApiInput {
  body_title : string;
  body_description : option string;
  body_price : Z;
  body_category : option string
}.

Module LessonRouter.

Definition validationError (message : string) : Thrown :=
  MiddlewareError
    (mkAppError 400 ("Validation error: " ++ message)
       (Some "LESSON_VALIDATION_ERROR")).

(** [val?.trim() || undefined]. *)
Definition trimOrUndefined (val : option string) : option string :=
  match val with
  | Some v => if String.eqb (trim v) "" then None else Some (trim v)
  | None => None
  end.

(** [validateCreateLessonRequest]: the checks of [createLessonSchema] in the
    order of its keys, the first issue reported, the body replaced by the
    parsed one. *)
Definition validateCreateLessonRequest (body : CreateLessonApiInput)
    : Result CreateLessonApiInput :=
  if jsLength (body_title body) <? 1
  then Throw (validationError "Title is required")
  else if jsLength (body_title body) >? 200
  then Throw (validationError "Title must be 200 characters or less")
  else if match body_description body with
          | Some d => jsLength d >? 2000
          | None => false
          end
  then Throw (validationError "Description must be 2000 characters or less")
  else if body_price body <? 100
  then Throw (validationError "Price must be at least $1.00")
  else if body_price body >? 99999
  then Throw (validationError "Price must be at most $999.99")
  else if match body_category body with
          | Some c => jsLength c >? 50
          | None => false
          end
  then Throw (validationError "Category must be 50 characters or less")
  else Ok {| body_title := trim (body_title body);
             body_description := trimOrUndefined (body_description body);
             body_price := body_price body;
             body_category := trimOrUndefined (body_category body) |}.

(** [POST /api/lessons]: [requireAuth], [requireRole(['INSTRUCTOR'])],
    [validateCreateLessonRequest], then the handler, which calls the
    service with [req.user]. The body is the parsed one, which has the four
    properties of the schema and no other. *)
Definition postLesson (verifyIdToken : string -> option UserSession)
    (db : Db) (newId : string) (now : Z)
    (token : option string) (body : CreateLessonApiInput)
    : Result LessonWithInstructor * Db :=
  match requireAuth verifyIdToken token with
  | Throw e => (Throw e, db)
  | Ok user =>
      match requireRole ["INSTRUCTOR"] (Some user) with
      | Throw e => (Throw e, db)
      | Ok _ =>
          match validateCreateLessonRequest body with
          | Throw e => (Throw e, db)
          | Ok body =>
              let lessonInput :=
                mkCreateLessonInput (body_title body) (body_description body)
                  (body_price body) (body_category body) (uid user) in
              LessonService.createLesson db newId now lessonInput user
          end
      end
  end.

(** The sort options of [GET /api/lessons]: [sortBy] defaults to
    ['created'], which names the field ['createdAt']; any other key is
    passed on as it is. *)
Definition sortOptions (sortBy : option string) (sortOrder : SortDirection)
    : LessonSortOptions :=
  let sortBy := default "created" sortBy in
  {| field := if String.eqb sortBy "created" then "createdAt" else sortBy;
     direction := sortOrder |}.

End LessonRouter.

(** ** Database integrity and sequences of service calls *)

(** What the schema guarantees of every database: a lesson's key is its id,
    its instructor exists, and a user has at most one purchase of a
    lesson (the [userId_lessonId] unique key). *)
Definition keysAreIds (db : Db) : Prop :=
  map_Forall (fun k l => lesson_id l = k) (lessons db).

Definition instructorsExist (db : Db) : Prop :=
  map_Forall (fun _ l => is_Some (users db !! lesson_instructorId l))
             (lessons db).

Definition onePurchasePerUser (db : Db) : Prop :=
  forall p q, p ∈ purchases db -> q ∈ purchases db ->
              purchase_userId p = purchase_userId q ->
              purchase_lessonId p = purchase_lessonId q -> p = q.

(** A call of one of the three methods of the service that write. *)
Inductive ServiceCall : Type :=
| CallCreate (newId : string) (now : Z) (input : CreateLessonInput)
             (session : UserSession)
| CallUpdate (now : Z) (lessonId : string) (input : UpdateLessonInput)
             (session : UserSession)
| CallDelete (lessonId : string) (session : UserSession).

(** The database after a call, whether it returned or threw, and after a
    sequence of calls. *)
Definition afterCall (db : Db) (c : ServiceCall) : Db :=
  match c with
  | CallCreate newId now input session =>
      snd (LessonService.createLesson db newId now input session)
  | CallUpdate now lessonId input session =>
      snd (LessonService.updateLesson db now lessonId input session)
  | CallDelete lessonId session =>
      snd (LessonService.deleteLesson db lessonId session)
  end.

Definition afterCalls (db : Db) (cs : list ServiceCall) : Db :=
  foldl afterCall db cs.

(** ** Sample data: the sessions, lessons and purchases of the scenarios *)

Module Sample.

Definition instructorU1 : UserSession :=
  mkUserSession "U1" "u1@example.com" (Some "Uma") INSTRUCTOR None None.

Definition instructorU3 : UserSession :=
  mkUserSession "U3" "u3@example.com" None INSTRUCTOR None None.

Definition studentU2 : UserSession :=
  mkUserSession "U2" "u2@example.com" None STUDENT None None.

Definition admin1 : UserSession :=
  mkUserSession "ADMIN1" "root@example.com" None ADMIN None None.

(** [L1]: unpublished, owned by [U1], never bought. *)
Definition L1 : Lesson :=
  mkLesson "L1" "Draft" None 2999 None None false "U1" 10 10.

(** [L2]: published, owned by [U1], bought once. *)
Definition L2 : Lesson :=
  mkLesson "L2" "Kendama basics" (Some "Spikes") 1999 None None true "U1"
           20 20.

(** [L3]: published, owned by [U1]; its two purchases never completed. *)
Definition L3 : Lesson :=
  mkLesson "L3" "Juggling" None 4999 None None true "U1" 30 30.

Definition bought : Purchase :=
  mkPurchase "P1" "U2" "L2" 1999 299 1700 COMPLETED.

Definition abandoned : Purchase :=
  mkPurchase "P2" "U2" "L3" 4999 749 4250 PENDING.

Definition declined : Purchase :=
  mkPurchase "P3" "U3" "L3" 4999 749 4250 FAILED.

Definition db : Db :=
  {| lessons := <["L1" := L1]> (<["L2" := L2]> (<["L3" := L3]> ∅));
     users := <["U1" := mkUser "U1" (Some "Uma") "u1@example.com"]> ∅;
     purchases := [bought; abandoned; declined];
     reviews := [mkReview "R1" "U2" "L2" 5 (Some "Great")];
     tags := [mkTag "L2" "beginner"] |}.



(** Firebase's verification for the samples: one token per session. *)
Definition verifyIdToken (token : string) : option UserSession :=
  if String.eqb token "token-U1" then Some instructorU1
  else if String.eqb token "token-U2" then Some studentU2
  else if String.eqb token "token-ADMIN1" then Some admin1
  else None.

Definition okInput (price : Z) : CreateLessonInput :=
  mkCreateLessonInput "ok" None price None "U1".

End Sample.

(** * Properties *)

(** ** Helper lemmas *)

Lemma jsLength_zero (s : string) : (jsLength s =? 0) = true <-> s = "".
Proof.
  unfold jsLength. rewrite Z.eqb_eq. destruct s; simpl; split; intros H;
    first [ reflexivity | lia | discriminate ].
Qed.

Lemma trim_empty : trim "" = "".
Proof. reflexivity. Qed.

Lemma truthyString_Some (s : string) :
  truthyString (Some s) = true <-> s <> "".
Proof.
  unfold truthyString. rewrite negb_true_iff.
  destruct (String.eqb_spec s ""); split; intros; congruence.
Qed.

(** The title check of [validateLessonInput] fires exactly when the trimmed
    title is empty. *)
Lemma title_required_check (t : string) :
  negb (truthyString (Some t)) || (jsLength (trim t) =? 0) = true
  <-> trim t = "".
Proof.
  rewrite orb_true_iff, negb_true_iff, jsLength_zero. split.
  - intros [H | H]; [| exact H].
    destruct (String.eqb_spec t "") as [-> | ?]; [apply trim_empty |].
    simpl in H. rewrite negb_false_iff in H.
    apply String.eqb_eq in H. congruence.
  - intros H. right. exact H.
Qed.

Lemma validatePrice_in_range (p : Z) :
  100 <= p <= 99999 -> LessonService.validatePrice p = Ok tt.
Proof.
  intros [Hlo Hhi]. unfold LessonService.validatePrice.
  destruct (Z.ltb_spec p 100); [lia |].
  destruct (Z.gtb_spec p 99999); [lia | reflexivity].
Qed.

Lemma validatePrice_out_of_range (p : Z) :
  p < 100 \/ 99999 < p ->
  LessonService.validatePrice p = Throw (InvalidLessonPriceError p).
Proof.
  intros H. unfold LessonService.validatePrice.
  destruct (Z.ltb_spec p 100); [reflexivity |].
  destruct (Z.gtb_spec p 99999); [reflexivity | lia].
Qed.

(** An input whose title and description pass their checks is validated
    by its price alone. *)
Lemma validateLessonInput_reaches_price (input : CreateLessonInput) :
  trim (input_title input) <> "" ->
  (String.length (input_title input) <= 200)%nat ->
  (forall d, input_description input = Some d ->
             (String.length d <= 2000)%nat) ->
  LessonService.validateLessonInput input
  = LessonService.validatePrice (input_price input).
Proof.
  intros Ht Hlen Hd. unfold LessonService.validateLessonInput.
  destruct (negb (truthyString (Some (input_title input)))
            || (jsLength (trim (input_title input)) =? 0)) eqn:E1.
  { apply title_required_check in E1. contradiction. }
  destruct (Z.gtb_spec (jsLength (input_title input)) 200) as [H | _].
  { unfold jsLength in H. lia. }
  destruct (input_description input) as [d |] eqn:Ed; simpl.
  - specialize (Hd d eq_refl).
    destruct (Z.gtb_spec (jsLength d) 2000) as [H | _].
    + unfold jsLength in H. lia.
    + rewrite andb_false_r. reflexivity.
  - reflexivity.
Qed.

(** The four ways [validateLessonInput] can end before or at the price
    check, in the order of the checks. *)
Lemma validateLessonInput_cases (input : CreateLessonInput) :
  (trim (input_title input) = ""
   /\ LessonService.validateLessonInput input
      = Throw (LessonValidationError "title" "Title is required"))
  \/ (trim (input_title input) <> ""
      /\ (200 < String.length (input_title input))%nat
      /\ LessonService.validateLessonInput input
         = Throw (LessonValidationError "title"
                    "Title must be 200 characters or less"))
  \/ (trim (input_title input) <> ""
      /\ (String.length (input_title input) <= 200)%nat
      /\ (exists d, input_description input = Some d
                    /\ (2000 < String.length d)%nat)
      /\ LessonService.validateLessonInput input
         = Throw (LessonValidationError "description"
                    "Description must be 2000 characters or less"))
  \/ (trim (input_title input) <> ""
      /\ (String.length (input_title input) <= 200)%nat
      /\ (forall d, input_description input = Some d ->
                    (String.length d <= 2000)%nat)
      /\ LessonService.validateLessonInput input
         = LessonService.validatePrice (input_price input)).
Proof.
  destruct (decide (trim (input_title input) = "")) as [Ht | Ht].
  { left. split; [exact Ht |]. unfold LessonService.validateLessonInput.
    apply title_required_check in Ht. rewrite Ht. reflexivity. }
  right.
  assert (E1 : negb (truthyString (Some (input_title input)))
               || (jsLength (trim (input_title input)) =? 0) = false).
  { apply not_true_is_false. rewrite title_required_check. exact Ht. }
  destruct (le_lt_dec (String.length (input_title input)) 200) as [Hl | Hl].
  2:{ left. repeat split; [exact Ht | exact Hl |].
      unfold LessonService.validateLessonInput. rewrite E1.
      destruct (Z.gtb_spec (jsLength (input_title input)) 200) as [_ | H];
        [reflexivity | unfold jsLength in H; lia]. }
  right.
  destruct (input_description input) as [d |] eqn:Ed.
  - destruct (le_lt_dec (String.length d) 2000) as [Hd | Hd].
    + right. repeat split; [exact Ht | exact Hl | |].
      * intros d' [= <-]. exact Hd.
      * apply validateLessonInput_reaches_price; [exact Ht | exact Hl |].
        intros d' Hd'. rewrite Ed in Hd'. injection Hd' as <-. exact Hd.
    + left. repeat split; [exact Ht | exact Hl | exists d; auto |].
      unfold LessonService.validateLessonInput. rewrite E1.
      destruct (Z.gtb_spec (jsLength (input_title input)) 200) as [H | _];
        [unfold jsLength in H; lia |].
      rewrite Ed. simpl.
      assert (Hne : d <> "") by (intros ->; simpl in Hd; lia).
      apply truthyString_Some in Hne. simpl in Hne. rewrite Hne. simpl.
      destruct (Z.gtb_spec (jsLength d) 2000) as [_ | H];
        [reflexivity | unfold jsLength in H; lia].
  - right. repeat split; [exact Ht | exact Hl | discriminate |].
    apply validateLessonInput_reaches_price;
      [exact Ht | exact Hl | intros d' Hd'; rewrite Ed in Hd'; discriminate].
Qed.

(** ** Validation *)

(** C6. The price check accepts exactly the range from 100 to 99999, both
    ends included: on an input whose title and description pass,
    [validateLessonInput] accepts a price of 100 and of 99999 and rejects 99
    and 100000. A price outside the range is never accepted, the price
    failure is [InvalidLessonPriceError] carrying that price, and this error
    is another class, with another code, than [LessonValidationError]. *)
Theorem validateLessonInput_price_range :
  (forall t d c i,
     trim t <> "" -> (String.length t <= 200)%nat ->
     (forall s, d = Some s -> (String.length s <= 2000)%nat) ->
     let validate p :=
       LessonService.validateLessonInput (mkCreateLessonInput t d p c i) in
     validate 100 = Ok tt
     /\ validate 99999 = Ok tt
     /\ validate 99 = Throw (InvalidLessonPriceError 99)
     /\ validate 100000 = Throw (InvalidLessonPriceError 100000)
     /\ forall p,
          (100 <= p <= 99999 -> validate p = Ok tt)
          /\ (p < 100 \/ 99999 < p ->
              validate p = Throw (InvalidLessonPriceError p)))
  /\ (forall input,
        input_price input < 100 \/ 99999 < input_price input ->
        isOk (LessonService.validateLessonInput input) = false)
  /\ (forall input p,
        LessonService.validateLessonInput input
        = Throw (InvalidLessonPriceError p) ->
        p = input_price input /\ (p < 100 \/ 99999 < p))
  /\ (forall p,
        (LessonService.validatePrice p = Ok tt <-> 100 <= p <= 99999)
        /\ (p < 100 \/ 99999 < p ->
            LessonService.validatePrice p
            = Throw (InvalidLessonPriceError p)))
  /\ (forall p f m,
        DomainError (InvalidLessonPriceError p)
        <> DomainError (LessonValidationError f m)
        /\ code (toAppError (InvalidLessonPriceError p))
           <> code (toAppError (LessonValidationError f m))).
Proof.
  assert (Hprice : forall p,
    (LessonService.validatePrice p = Ok tt <-> 100 <= p <= 99999)
    /\ (p < 100 \/ 99999 < p ->
        LessonService.validatePrice p = Throw (InvalidLessonPriceError p))).
  { intros p. split; [split |].
    - intros H. destruct (Z_lt_le_dec p 100) as [Hlo | Hlo].
      { rewrite validatePrice_out_of_range in H by lia. discriminate. }
      destruct (Z_lt_le_dec 99999 p) as [Hhi | Hhi]; [| lia].
      rewrite validatePrice_out_of_range in H by lia. discriminate.
    - apply validatePrice_in_range.
    - apply validatePrice_out_of_range. }
  split; [| split; [| split; [| split]]].
  - intros t d c i Ht Hl Hd validate.
    assert (Hv : forall p, validate p = LessonService.validatePrice p).
    { intros p. unfold validate.
      apply validateLessonInput_reaches_price; simpl; assumption. }
    repeat split; try (rewrite Hv; reflexivity).
    + rewrite Hv. now apply validatePrice_in_range.
    + rewrite Hv. now apply validatePrice_out_of_range.
  - intros input Hout.
    destruct (validateLessonInput_cases input)
      as [[_ ->] | [(_ & _ & ->) | [(_ & _ & _ & ->) | (_ & _ & _ & ->)]]];
      try reflexivity.
    rewrite validatePrice_out_of_range by exact Hout. reflexivity.
  - intros input p H.
    destruct (validateLessonInput_cases input)
      as [[_ E] | [(_ & _ & E) | [(_ & _ & _ & E) | (_ & _ & _ & E)]]];
      rewrite E in H; try discriminate.
    destruct (Z_lt_le_dec (input_price input) 100) as [Hlo | Hlo];
      [| destruct (Z_lt_le_dec 99999 (input_price input)) as [Hhi | Hhi]].
    + rewrite validatePrice_out_of_range in H by lia.
      injection H as <-. split; [reflexivity | lia].
    + rewrite validatePrice_out_of_range in H by lia.
      injection H as <-. split; [reflexivity | lia].
    + rewrite validatePrice_in_range in H by lia. discriminate.
  - exact Hprice.
  - intros p f m. split; [discriminate | simpl; discriminate].
Qed.

Lemma validateLessonInput_price_range_witness :
  LessonService.validateLessonInput (Sample.okInput 100) = Ok tt
  /\ LessonService.validateLessonInput (Sample.okInput 99999) = Ok tt
  /\ LessonService.validateLessonInput (Sample.okInput 99)
     = Throw (InvalidLessonPriceError 99)
  /\ LessonService.validateLessonInput (Sample.okInput 100000)
     = Throw (InvalidLessonPriceError 100000).
Proof.
  destruct (proj1 validateLessonInput_price_range "ok" None None "U1")
    as (H1 & H2 & H3 & H4 & _).
  - discriminate.
  - simpl; lia.
  - discriminate.
  - exact (conj H1 (conj H2 (conj H3 H4))).
Defined.

(** C7. [validateLessonInput] runs its checks in a fixed order and stops at
    the first that fails: the title must be non-empty once trimmed, then at
    most 200 long; then the description, when there is one, at most 2000
    long; only then the price. A call ends in exactly one of five ways, so an
    empty title with a price out of range is reported as the title error. *)
Theorem validateLessonInput_first_failure (input : CreateLessonInput) :
  let result := LessonService.validateLessonInput input in
  (trim (input_title input) = "" ->
   result = Throw (LessonValidationError "title" "Title is required"))
  /\ (trim (input_title input) <> "" ->
      (200 < String.length (input_title input))%nat ->
      result = Throw (LessonValidationError "title"
                        "Title must be 200 characters or less"))
  /\ (trim (input_title input) <> "" ->
      (String.length (input_title input) <= 200)%nat ->
      forall d, input_description input = Some d ->
                (2000 < String.length d)%nat ->
      result = Throw (LessonValidationError "description"
                        "Description must be 2000 characters or less"))
  /\ (trim (input_title input) <> "" ->
      (String.length (input_title input) <= 200)%nat ->
      (forall d, input_description input = Some d ->
                 (String.length d <= 2000)%nat) ->
      result = LessonService.validatePrice (input_price input))
  /\ (result = Ok tt
      \/ result = Throw (LessonValidationError "title" "Title is required")
      \/ result = Throw (LessonValidationError "title"
                           "Title must be 200 characters or less")
      \/ result = Throw (LessonValidationError "description"
                           "Description must be 2000 characters or less")
      \/ result = Throw (InvalidLessonPriceError (input_price input)))
  /\ (forall d p c i,
        LessonService.validateLessonInput (mkCreateLessonInput "" d p c i)
        = Throw (LessonValidationError "title" "Title is required")).
Proof.
  intros result. subst result.
  pose proof (validateLessonInput_cases input) as Hc.
  split; [| split; [| split; [| split; [| split]]]].
  - intros Ht.
    destruct Hc as [[_ E] | [(N & _) | [(N & _) | (N & _)]]];
      [exact E | contradiction ..].
  - intros Ht Hl.
    destruct Hc as [[N _] | [(_ & _ & E) | [(_ & N & _) | (_ & N & _)]]];
      [contradiction | exact E | lia | lia].
  - intros Ht Hl d Hd Hlen.
    destruct Hc
      as [[N _] | [(_ & N & _) | [(_ & _ & _ & E) | (_ & _ & N & _)]]];
      [contradiction | lia | exact E |].
    specialize (N d Hd). lia.
  - intros Ht Hl Hd.
    destruct Hc
      as [[N _] | [(_ & N & _) | [(_ & _ & (d & Ed & N) & _) | (_ & _ & _ & E)]]];
      [contradiction | lia | | exact E].
    specialize (Hd d Ed). lia.
  - destruct Hc
      as [[_ E] | [(_ & _ & E) | [(_ & _ & _ & E) | (_ & _ & _ & E)]]];
      rewrite E; auto.
    unfold LessonService.validatePrice.
    destruct ((input_price input <? 100) || (input_price input >? 99999));
      auto 10.
  - intros d p c i. reflexivity.
Qed.

Lemma validateLessonInput_first_failure_witness :
  LessonService.validateLessonInput
    (mkCreateLessonInput "   " None 50 None "U1")
  = Throw (LessonValidationError "title" "Title is required")
  /\ LessonService.validateLessonInput (mkCreateLessonInput "ok" None 50 None "U1")
     = Throw (InvalidLessonPriceError 50).
Proof.
  split.
  - apply (proj1 (validateLessonInput_first_failure
                    (mkCreateLessonInput "   " None 50 None "U1"))).
    reflexivity.
  - apply (proj1 (proj2 (proj2 (proj2 (validateLessonInput_first_failure
                    (mkCreateLessonInput "ok" None 50 None "U1")))))).
    + discriminate.
    + simpl; lia.
    + discriminate.
Defined.

(** ** Deleting a lesson *)

Lemma filter_none {A : Type} (P : A -> Prop) `{!forall x, Decision (P x)}
    (l : list A) :
  (forall x, x ∈ l -> ~ P x) -> filter P l = [].
Proof.
  induction l as [| a l IH]; intros Hno; [reflexivity |].
  rewrite filter_cons_False by (apply Hno; left).
  apply IH. intros x Hx. apply Hno. right. exact Hx.
Qed.

(** Who may update or delete a lesson: its owner, or an administrator. *)
Lemma mutate_check (l : Lesson) (u : UserSession) :
  negb (bool_decide (lesson_instructorId l = uid u))
  && negb (bool_decide (role u = ADMIN)) = false
  <-> lesson_instructorId l = uid u \/ role u = ADMIN.
Proof.
  destruct (decide (lesson_instructorId l = uid u)) as [Ho | Ho];
    destruct (decide (role u = ADMIN)) as [Ha | Ha];
    rewrite ?(bool_decide_eq_true_2 _ Ho), ?(bool_decide_eq_false_2 _ Ho),
            ?(bool_decide_eq_true_2 _ Ha), ?(bool_decide_eq_false_2 _ Ha);
    simpl; split; intros H; try tauto; try discriminate.
Qed.

(** [deleteLesson] on a lesson that exists, as its remaining steps: the
    permission check, the purchase check, the repository's delete. *)
Lemma deleteLesson_found (db : Db) (lessonId : string) (l : Lesson)
    (u : UserSession) :
  lessons db !! lessonId = Some l ->
  LessonService.deleteLesson db lessonId u
  = if negb (bool_decide (lesson_instructorId l = uid u))
       && negb (bool_decide (role u = ADMIN))
    then (Throw (LessonPermissionDeniedError lessonId (uid u)), db)
    else if (0 <? length (LessonRepository.purchasesOf db lessonId))%nat
    then (Throw (LessonHasPurchasesError lessonId
                   (length (LessonRepository.purchasesOf db lessonId))), db)
    else if LessonRepository.hasDependencies db lessonId
    then (Throw PrismaClientError, db)
    else (Ok true, LessonRepository.withoutLesson db lessonId).
Proof.
  intros Hl. unfold LessonService.deleteLesson, LessonRepository.findById,
    LessonRepository.deleteLesson.
  rewrite Hl. simpl.
  destruct (LessonRepository.hasDependencies db lessonId); reflexivity.
Qed.

(** The repository's delete goes through exactly when nothing refers to
    the lesson. *)
Lemma hasDependencies_false (db : Db) (lessonId : string) :
  LessonRepository.hasDependencies db lessonId = false
  <-> LessonRepository.purchasesOf db lessonId = []
      /\ LessonRepository.reviewsOf db lessonId = []
      /\ LessonRepository.tagsOf db lessonId = [].
Proof.
  unfold LessonRepository.hasDependencies.
  rewrite negb_false_iff, bool_decide_eq_true. reflexivity.
Qed.




(** C5. A lesson with a completed purchase is never deleted by
    [deleteLesson]: whoever calls, the call throws, the database is left as
    it was and the lesson is still there; a caller who passes the permission
    check is told [LessonHasPurchasesError]. *)
Theorem deleteLesson_keeps_purchased_lesson (db : Db) (lessonId : string)
    (l : Lesson) (u : UserSession) (p : Purchase) :
  lessons db !! lessonId = Some l ->
  p ∈ purchases db ->
  purchase_lessonId p = lessonId ->
  purchase_status p = COMPLETED ->
  isOk (fst (LessonService.deleteLesson db lessonId u)) = false
  /\ snd (LessonService.deleteLesson db lessonId u) = db
  /\ lessons (snd (LessonService.deleteLesson db lessonId u)) !! lessonId
     = Some l
  /\ (lesson_instructorId l = uid u \/ role u = ADMIN ->
      fst (LessonService.deleteLesson db lessonId u)
      = Throw (LessonHasPurchasesError lessonId
                 (length (LessonRepository.purchasesOf db lessonId)))).
Proof.
  intros Hl Hin Hid _.
  assert (Hpos : (0 < length (LessonRepository.purchasesOf db lessonId))%nat).
  { assert (Hp : p ∈ LessonRepository.purchasesOf db lessonId).
    { unfold LessonRepository.purchasesOf. apply list_elem_of_filter.
      split; assumption. }
    destruct (LessonRepository.purchasesOf db lessonId);
      [inversion Hp | simpl; lia]. }
  rewrite (deleteLesson_found db lessonId l u Hl).
  destruct (Nat.ltb_spec 0 (length (LessonRepository.purchasesOf db lessonId)))
    as [_ | Hn]; [| lia].
  destruct (negb (bool_decide (lesson_instructorId l = uid u))
            && negb (bool_decide (role u = ADMIN))) eqn:E; simpl.
  - repeat split; try exact Hl.
    intros Hm. apply mutate_check in Hm. congruence.
  - repeat split; exact Hl.
Qed.

Lemma deleteLesson_keeps_purchased_lesson_witness :
  isOk (fst (LessonService.deleteLesson Sample.db "L2" Sample.instructorU1))
  = false
  /\ snd (LessonService.deleteLesson Sample.db "L2" Sample.instructorU1)
     = Sample.db.
Proof.
  destruct (deleteLesson_keeps_purchased_lesson Sample.db "L2" Sample.L2
              Sample.instructorU1 Sample.bought)
    as (H1 & H2 & _).
  - reflexivity.
  - apply list_elem_of_here.
  - reflexivity.
  - reflexivity.
  - exact (conj H1 H2).
Defined.

(** C10. [deleteLesson] counts every purchase of the lesson, whatever its
    status: for a caller who passes the permission check, a lesson with any
    purchase gives [LessonHasPurchasesError] with the number of all its
    purchases, also when none of them is completed. [getLessonStats] counts
    the completed ones only, so its count is 0 for such a lesson. *)
Theorem deleteLesson_counts_every_status (db : Db) (lessonId : string)
    (l : Lesson) (u : UserSession) (p : Purchase) :
  lessons db !! lessonId = Some l ->
  lesson_instructorId l = uid u \/ role u = ADMIN ->
  p ∈ purchases db ->
  purchase_lessonId p = lessonId ->
  LessonService.deleteLesson db lessonId u
  = (Throw (LessonHasPurchasesError lessonId
              (length (LessonRepository.purchasesOf db lessonId))), db)
  /\ stats_purchaseCount (LessonRepository.getLessonStats db lessonId)
     = length (filter (fun q => purchase_status q = COMPLETED)
                      (LessonRepository.purchasesOf db lessonId))
  /\ ((forall q, q ∈ purchases db -> purchase_lessonId q = lessonId ->
                 purchase_status q <> COMPLETED) ->
      stats_purchaseCount (LessonRepository.getLessonStats db lessonId)
      = 0%nat
      /\ (0 < length (LessonRepository.purchasesOf db lessonId))%nat).
Proof.
  intros Hl Hm Hin Hid.
  assert (Hp : p ∈ LessonRepository.purchasesOf db lessonId).
  { unfold LessonRepository.purchasesOf. apply list_elem_of_filter.
    split; assumption. }
  assert (Hpos : (0 < length (LessonRepository.purchasesOf db lessonId))%nat).
  { destruct (LessonRepository.purchasesOf db lessonId);
      [inversion Hp | simpl; lia]. }
  split; [| split].
  - rewrite (deleteLesson_found db lessonId l u Hl).
    apply mutate_check in Hm. rewrite Hm.
    destruct (Nat.ltb_spec 0
                (length (LessonRepository.purchasesOf db lessonId)));
      [reflexivity | lia].
  - reflexivity.
  - intros Hnone. split; [| exact Hpos].
    unfold LessonRepository.getLessonStats. simpl.
    replace (filter (fun q => purchase_status q = COMPLETED)
                    (LessonRepository.purchasesOf db lessonId))
      with (@nil Purchase); [reflexivity |].
    symmetry. apply filter_none. intros q Hq Hc.
    unfold LessonRepository.purchasesOf in Hq.
    apply list_elem_of_filter in Hq as [Hqid Hqin].
    exact (Hnone q Hqin Hqid Hc).
Qed.

Lemma deleteLesson_counts_every_status_witness :
  LessonService.deleteLesson Sample.db "L3" Sample.instructorU1
  = (Throw (LessonHasPurchasesError "L3" 2), Sample.db)
  /\ stats_purchaseCount (LessonRepository.getLessonStats Sample.db "L3")
     = 0%nat.
Proof.
  destruct (deleteLesson_counts_every_status Sample.db "L3" Sample.L3
              Sample.instructorU1 Sample.abandoned)
    as (H1 & _ & H3).
  - reflexivity.
  - left. reflexivity.
  - apply list_elem_of_further, list_elem_of_here.
  - reflexivity.
  - split; [exact H1 |]. apply H3.
    intros q Hq Hid Hst. unfold Sample.db in Hq. simpl in Hq.
    apply elem_of_cons in Hq as [-> | Hq]; [discriminate Hid |].
    apply elem_of_cons in Hq as [-> | Hq]; [discriminate Hst |].
    apply elem_of_cons in Hq as [-> | Hq]; [discriminate Hst |].
    inversion Hq.
Defined.

(** ** Viewing a lesson *)

(** The [canAccess] test of [getLessonById], as a proposition. *)
Lemma canAccess_check (l : Lesson) (caller : option UserSession) :
  match caller with
  | Some u =>
      bool_decide (lesson_instructorId l = uid u)
      || bool_decide (role u = ADMIN)
  | None => false
  end = true
  <-> exists u, caller = Some u
                /\ (lesson_instructorId l = uid u \/ role u = ADMIN).
Proof.
  destruct caller as [u |].
  - rewrite orb_true_iff, !bool_decide_eq_true. split.
    + intros H. exists u. split; [reflexivity | exact H].
    + intros (u' & [= <-] & H). exact H.
  - split; [discriminate | intros (u & H & _); discriminate].
Qed.

(** An unpublished lesson and a caller without access: the gate throws. *)
Lemma getLessonById_denied (db : Db) (lessonId : string) (l : Lesson)
    (caller : option UserSession) :
  lessons db !! lessonId = Some l ->
  lesson_published l = false ->
  ~ (exists u, caller = Some u
               /\ (lesson_instructorId l = uid u \/ role u = ADMIN)) ->
  LessonService.getLessonById db lessonId caller
  = Throw (LessonNotPublishedError lessonId).
Proof.
  intros Hl Hpub Hno. unfold LessonService.getLessonById,
    LessonRepository.findById. rewrite Hl. simpl. rewrite Hpub. simpl.
  destruct (match caller with
            | Some u => bool_decide (lesson_instructorId l = uid u)
                        || bool_decide (role u = ADMIN)
            | None => false
            end) eqn:E.
  - apply canAccess_check in E. contradiction.
  - reflexivity.
Qed.

(** A published lesson, or a caller with access: the lesson is returned,
    provided its instructor's row is there, as the schema requires. *)
Lemma getLessonById_granted (db : Db) (lessonId : string) (l : Lesson)
    (caller : option UserSession) :
  lessons db !! lessonId = Some l ->
  is_Some (users db !! lesson_instructorId l) ->
  lesson_published l = true
  \/ (exists u, caller = Some u
                /\ (lesson_instructorId l = uid u \/ role u = ADMIN)) ->
  exists dto, LessonService.getLessonById db lessonId caller = Ok dto
              /\ dto_id (base (lesson dto)) = lesson_id l
              /\ dto_published (base (lesson dto)) = lesson_published l.
Proof.
  intros Hl [i Hi] Hvis. unfold LessonService.getLessonById,
    LessonRepository.findById. rewrite Hl. simpl.
  assert (Hgate :
    (if negb (lesson_published l)
     then if negb (match caller with
                   | Some u => bool_decide (lesson_instructorId l = uid u)
                               || bool_decide (role u = ADMIN)
                   | None => false
                   end)
          then Throw (LessonNotPublishedError lessonId)
          else Ok tt
     else Ok tt) = Ok tt).
  { destruct (lesson_published l) eqn:Hpub; [reflexivity |]. simpl.
    destruct Hvis as [H | H]; [discriminate |].
    apply canAccess_check in H. rewrite H. reflexivity. }
  rewrite Hgate. simpl.
  unfold LessonService.transformToLessonWithStats,
    LessonService.transformToLessonWithInstructor. simpl.
  rewrite Hi. simpl.
  destruct caller; eexists; (split; [reflexivity | split; reflexivity]).
Qed.

(** Every error [getLessonById] can throw. *)
Lemma getLessonById_throws (db : Db) (lessonId : string)
    (caller : option UserSession) (e : Thrown) :
  LessonService.getLessonById db lessonId caller = Throw e ->
  e = LessonNotFoundError lessonId
  \/ e = LessonNotPublishedError lessonId
  \/ e = TypeError.
Proof.
  unfold LessonService.getLessonById, LessonRepository.findById.
  destruct (lessons db !! lessonId) as [l |]; simpl.
  2:{ intros [= <-]. left. reflexivity. }
  destruct (negb (lesson_published l)).
  - destruct (negb _).
    + simpl. intros [= <-]. right; left. reflexivity.
    + simpl. unfold LessonService.transformToLessonWithStats,
        LessonService.transformToLessonWithInstructor. simpl.
      destruct (users db !! lesson_instructorId l); simpl.
      * destruct caller; discriminate.
      * intros [= <-]. right; right. reflexivity.
  - simpl. unfold LessonService.transformToLessonWithStats,
      LessonService.transformToLessonWithInstructor. simpl.
    destruct (users db !! lesson_instructorId l); simpl.
    + destruct caller; discriminate.
    + intros [= <-]. right; right. reflexivity.
Qed.

(** C2. The visibility gate of [getLessonById] lets every caller, the
    anonymous one included, through to a published lesson; it lets a caller
    through to an unpublished lesson exactly when the caller is present and
    is the owner or an administrator. Past the gate the lesson is returned,
    its instructor's row being there as the schema requires. *)
Theorem getLessonById_visibility (db : Db) (lessonId : string) (l : Lesson)
    (caller : option UserSession) :
  lessons db !! lessonId = Some l ->
  let result := LessonService.getLessonById db lessonId caller in
  let mayAccess :=
    exists u, caller = Some u
              /\ (lesson_instructorId l = uid u \/ role u = ADMIN) in
  (lesson_published l = true ->
   result <> Throw (LessonNotPublishedError lessonId))
  /\ (lesson_published l = false ->
      (result <> Throw (LessonNotPublishedError lessonId) <-> mayAccess))
  /\ (lesson_published l = false -> caller = None ->
      result = Throw (LessonNotPublishedError lessonId))
  /\ (is_Some (users db !! lesson_instructorId l) ->
      (lesson_published l = true -> isOk result = true)
      /\ (lesson_published l = false -> (isOk result = true <-> mayAccess))).
Proof.
  intros Hl result mayAccess. subst result mayAccess.
  assert (Hdec : lesson_published l = false ->
            (exists u, caller = Some u
                       /\ (lesson_instructorId l = uid u \/ role u = ADMIN))
            \/ LessonService.getLessonById db lessonId caller
               = Throw (LessonNotPublishedError lessonId)).
  { intros Hpub.
    destruct (match caller with
              | Some u => bool_decide (lesson_instructorId l = uid u)
                          || bool_decide (role u = ADMIN)
              | None => false
              end) eqn:E.
    - left. apply canAccess_check. exact E.
    - right. apply (getLessonById_denied db lessonId l caller Hl Hpub).
      intros H. apply canAccess_check in H. congruence. }
  assert (Hpass : lesson_published l = true
                  \/ (exists u, caller = Some u
                                /\ (lesson_instructorId l = uid u
                                    \/ role u = ADMIN)) ->
            LessonService.getLessonById db lessonId caller
            <> Throw (LessonNotPublishedError lessonId)).
  { intros Hvis H. unfold LessonService.getLessonById,
      LessonRepository.findById in H. rewrite Hl in H. simpl in H.
    destruct (lesson_published l) eqn:Hpub; simpl in H.
    - unfold LessonService.transformToLessonWithStats,
        LessonService.transformToLessonWithInstructor in H. simpl in H.
      destruct (users db !! lesson_instructorId l); simpl in H;
        [destruct caller |]; discriminate H.
    - destruct Hvis as [Hvis | Hvis]; [discriminate |].
      apply canAccess_check in Hvis. rewrite Hvis in H. simpl in H.
      unfold LessonService.transformToLessonWithStats,
        LessonService.transformToLessonWithInstructor in H. simpl in H.
      destruct (users db !! lesson_instructorId l); simpl in H;
        [destruct caller |]; discriminate H. }
  split; [| split; [| split]].
  - intros Hpub. apply Hpass. left. exact Hpub.
  - intros Hpub. split.
    + intros Hne. destruct (Hdec Hpub) as [H | H]; [exact H | contradiction].
    + intros H. apply Hpass. right. exact H.
  - intros Hpub ->.
    destruct (Hdec Hpub) as [(u & H & _) | H]; [discriminate | exact H].
  - intros Hi. split.
    + intros Hpub.
      destruct (getLessonById_granted db lessonId l caller Hl Hi
                  (or_introl Hpub)) as (dto & -> & _).
      reflexivity.
    + intros Hpub. split.
      * intros Hok. destruct (Hdec Hpub) as [H | H]; [exact H |].
        rewrite H in Hok. discriminate.
      * intros H.
        destruct (getLessonById_granted db lessonId l caller Hl Hi
                    (or_intror H)) as (dto & -> & _).
        reflexivity.
Qed.

Lemma getLessonById_visibility_witness :
  isOk (LessonService.getLessonById Sample.db "L2" None) = true
  /\ (isOk (LessonService.getLessonById Sample.db "L1"
              (Some Sample.studentU2)) = true
      <-> exists u, Some Sample.studentU2 = Some u
                    /\ (lesson_instructorId Sample.L1 = uid u
                        \/ role u = ADMIN)).
Proof.
  pose proof (getLessonById_visibility Sample.db "L2" Sample.L2 None
                eq_refl) as (_ & _ & _ & H2).
  pose proof (getLessonById_visibility Sample.db "L1" Sample.L1
                (Some Sample.studentU2) eq_refl) as (_ & _ & _ & H1).
  split.
  - apply (proj1 (H2 (ex_intro _ _ eq_refl))). reflexivity.
  - apply (proj2 (H1 (ex_intro _ _ eq_refl))). reflexivity.
Defined.

(** C8. An unpublished lesson asked for by a caller who is neither its
    owner nor an administrator, the anonymous caller included, is answered
    with [LessonNotPublishedError]. [getLessonById] never throws
    [LessonPermissionDeniedError], the error of the mutation paths, which is
    another class with another code. *)
Theorem getLessonById_not_published_error (db : Db) (lessonId : string)
    (caller : option UserSession) :
  (forall l,
     lessons db !! lessonId = Some l ->
     lesson_published l = false ->
     ~ (exists u, caller = Some u
                  /\ (lesson_instructorId l = uid u \/ role u = ADMIN)) ->
     LessonService.getLessonById db lessonId caller
     = Throw (LessonNotPublishedError lessonId))
  /\ (forall a b,
        LessonService.getLessonById db lessonId caller
        <> Throw (LessonPermissionDeniedError a b))
  /\ (forall a b,
        DomainError (LessonNotPublishedError lessonId)
        <> DomainError (LessonPermissionDeniedError a b)
        /\ code (toAppError (LessonNotPublishedError lessonId))
           <> code (toAppError (LessonPermissionDeniedError a b))).
Proof.
  split; [| split].
  - intros l. apply getLessonById_denied.
  - intros a b H. apply getLessonById_throws in H.
    destruct H as [H | [H | H]]; discriminate H.
  - intros a b. split; [discriminate | simpl; discriminate].
Qed.

Lemma getLessonById_not_published_error_witness :
  LessonService.getLessonById Sample.db "L1" None
  = Throw (LessonNotPublishedError "L1")
  /\ LessonService.getLessonById Sample.db "L1" (Some Sample.instructorU3)
     = Throw (LessonNotPublishedError "L1").
Proof.
  split.
  - apply (proj1 (getLessonById_not_published_error Sample.db "L1" None)
             Sample.L1); [reflexivity | reflexivity |].
    intros (u & H & _). discriminate H.
  - apply (proj1 (getLessonById_not_published_error Sample.db "L1"
                    (Some Sample.instructorU3)) Sample.L1);
      [reflexivity | reflexivity |].
    intros (u & H & [Ho | Ha]); injection H as <-; discriminate.
Defined.

(** ** Searching *)

(** The test [userSession?.role === 'INSTRUCTOR'], as a proposition. *)
Lemma instructor_check (caller : option UserSession) :
  bool_decide (role <$> caller = Some INSTRUCTOR) = true
  <-> exists u, caller = Some u /\ role u = INSTRUCTOR.
Proof.
  rewrite bool_decide_eq_true. destruct caller as [u |]; simpl; split.
  - intros [= H]. exists u. split; [reflexivity | exact H].
  - intros (u' & [= <-] & H). rewrite H. reflexivity.
  - discriminate.
  - intros (u & H & _). discriminate.
Qed.

Lemma searchFilters_forced (filters : LessonSearchFilters)
    (caller : option UserSession) :
  (forall u, caller = Some u -> role u <> INSTRUCTOR) ->
  published (LessonService.searchFilters filters caller) = Some true.
Proof.
  intros Hno. unfold LessonService.searchFilters. simpl.
  destruct (bool_decide (role <$> caller = Some INSTRUCTOR)) eqn:E;
    [| reflexivity].
  apply instructor_check in E as (u & Hu & Hr).
  exfalso. exact (Hno u Hu Hr).
Qed.

(** C3. [searchLessons] searches with filters whose [published] is [true]
    for every caller who is not an instructor: the anonymous caller, a
    student, an administrator; the value asked for is dropped, and the
    search gives the same result whatever it was. An instructor's
    [published] is passed on as it is, [undefined] included. The other
    filters are passed on as they are, and the repository's [where] clause
    takes [published] from the filters it is given. *)
Theorem searchFilters_published (filters : LessonSearchFilters)
    (caller : option UserSession) :
  let searched := LessonService.searchFilters filters caller in
  ((forall u, caller = Some u -> role u <> INSTRUCTOR) ->
   published searched = Some true)
  /\ (caller = None -> published searched = Some true)
  /\ (forall u, caller = Some u -> role u = ADMIN \/ role u = STUDENT ->
                published searched = Some true)
  /\ (forall u, caller = Some u -> role u = INSTRUCTOR ->
                published searched = published filters)
  /\ (query searched = query filters
      /\ category searched = category filters
      /\ minPrice searched = minPrice filters
      /\ maxPrice searched = maxPrice filters
      /\ instructorId searched = instructorId filters
      /\ limit searched = limit filters
      /\ offset searched = offset filters)
  /\ (forall sort,
        where_published
          (args_where (LessonRepository.searchLessonsQuery searched sort))
        = published searched)
  /\ ((forall u, caller = Some u -> role u <> INSTRUCTOR) ->
      forall findMany count sort requested,
        LessonService.searchLessons findMany count filters sort caller
        = LessonService.searchLessons findMany count
            {| query := query filters; category := category filters;
               minPrice := minPrice filters; maxPrice := maxPrice filters;
               instructorId := instructorId filters;
               published := requested;
               limit := limit filters; offset := offset filters |}
            sort caller).
Proof.
  intros searched. subst searched.
  split; [| split; [| split; [| split; [| split; [| split]]]]].
  - apply searchFilters_forced.
  - intros ->. reflexivity.
  - intros u -> Hr. apply searchFilters_forced.
    intros u' [= <-] Hi. destruct Hr as [Hr | Hr]; congruence.
  - intros u -> Hr. unfold LessonService.searchFilters. simpl.
    rewrite Hr. reflexivity.
  - repeat split.
  - intros sort. reflexivity.
  - intros Hno findMany count sort requested.
    unfold LessonService.searchLessons.
    assert (E : LessonService.searchFilters filters caller
                = LessonService.searchFilters
                    {| query := query filters; category := category filters;
                       minPrice := minPrice filters;
                       maxPrice := maxPrice filters;
                       instructorId := instructorId filters;
                       published := requested;
                       limit := limit filters; offset := offset filters |}
                    caller).
    { unfold LessonService.searchFilters. simpl.
      destruct (bool_decide (role <$> caller = Some INSTRUCTOR)) eqn:E;
        [| reflexivity].
      apply instructor_check in E as (u & Hu & Hr).
      exfalso. exact (Hno u Hu Hr). }
    rewrite <- E. reflexivity.
Qed.

Lemma searchFilters_published_witness :
  published (LessonService.searchFilters
               (mkLessonSearchFilters None None None None None (Some false)
                  None None)
               (Some Sample.admin1)) = Some true
  /\ published (LessonService.searchFilters
                  (mkLessonSearchFilters None None None None None None
                     None None)
                  (Some Sample.instructorU1)) = None.
Proof.
  split.
  - apply (proj1 (searchFilters_published
                    (mkLessonSearchFilters None None None None None
                       (Some false) None None)
                    (Some Sample.admin1))).
    intros u [= <-]. discriminate.
  - apply (proj1 (proj2 (proj2 (proj2 (searchFilters_published
                    (mkLessonSearchFilters None None None None None None
                       None None)
                    (Some Sample.instructorU1))))) Sample.instructorU1);
      reflexivity.
Defined.

(** C9. [buildOrderBy] sorts by price or by title when asked to, and by
    [createdAt] for every other field: [createdAt] itself,
    [purchaseCount], [averageRating], and the keys ['rating'] and
    ['purchases'] that the router passes on. The direction is the one
    asked for in every case. *)
Theorem buildOrderBy_fallback (field : string) (direction : SortDirection) :
  (field <> "price" -> field <> "title" ->
   LessonRepository.buildOrderBy (mkLessonSortOptions field direction)
   = mkLessonOrderBy by_createdAt direction)
  /\ LessonRepository.buildOrderBy (mkLessonSortOptions "price" direction)
     = mkLessonOrderBy by_price direction
  /\ LessonRepository.buildOrderBy (mkLessonSortOptions "title" direction)
     = mkLessonOrderBy by_title direction
  /\ order_direction
       (LessonRepository.buildOrderBy (mkLessonSortOptions field direction))
     = direction
  /\ (forall f, In f ["createdAt"; "purchaseCount"; "averageRating";
                      "rating"; "purchases"] ->
                LessonRepository.buildOrderBy
                  (mkLessonSortOptions f direction)
                = mkLessonOrderBy by_createdAt direction)
  /\ (forall sortBy, In sortBy [None; Some "created"; Some "rating";
                                Some "purchases"] ->
                     LessonRepository.buildOrderBy
                       (LessonRouter.sortOptions sortBy direction)
                     = mkLessonOrderBy by_createdAt direction)
  /\ LessonRepository.buildOrderBy
       (LessonRouter.sortOptions (Some "price") direction)
     = mkLessonOrderBy by_price direction.
Proof.
  split; [| split; [| split; [| split; [| split; [| split]]]]].
  - intros Hp Ht. unfold LessonRepository.buildOrderBy. simpl.
    destruct (String.eqb_spec field "price"); [contradiction |].
    destruct (String.eqb_spec field "title"); [contradiction |].
    reflexivity.
  - reflexivity.
  - reflexivity.
  - unfold LessonRepository.buildOrderBy. simpl.
    destruct (String.eqb field "price"); [reflexivity |].
    destruct (String.eqb field "title"); reflexivity.
  - intros f Hf. simpl in Hf.
    repeat (destruct Hf as [<- | Hf]; [reflexivity |]). contradiction.
  - intros s Hs. simpl in Hs.
    repeat (destruct Hs as [<- | Hs]; [reflexivity |]). contradiction.
  - reflexivity.
Qed.

Lemma buildOrderBy_fallback_witness :
  LessonRepository.buildOrderBy (mkLessonSortOptions "averageRating" asc)
  = mkLessonOrderBy by_createdAt asc.
Proof.
  apply (proj1 (buildOrderBy_fallback "averageRating" asc)); discriminate.
Defined.

(** ** Creating a lesson *)

(** Past validation and the role gate, [createLesson] ends with the insert:
    it returns the new lesson, or the insert fails in Prisma. *)
Lemma createLesson_instructor (db : Db) (newId : string) (now : Z)
    (input : CreateLessonInput) (u : UserSession) :
  LessonService.validateLessonInput input = Ok tt ->
  role u = INSTRUCTOR ->
  (lessons db !! newId = None /\ is_Some (users db !! uid u)
   /\ exists dto l,
        LessonService.createLesson db newId now input u
        = (Ok dto, {| lessons := <[newId := l]> (lessons db);
                      users := users db; purchases := purchases db;
                      reviews := reviews db; tags := tags db |})
        /\ lesson_instructorId l = uid u
        /\ lesson_published l = default false (input_published input))
  \/ ((is_Some (lessons db !! newId) \/ users db !! uid u = None)
      /\ LessonService.createLesson db newId now input u
         = (Throw PrismaClientError, db)).
Proof.
  intros Hv Hr. unfold LessonService.createLesson. rewrite Hv, Hr. simpl.
  unfold LessonRepository.createLesson. simpl.
  destruct (lessons db !! newId) as [l0 |] eqn:El.
  { right. split; [left; eauto | reflexivity]. }
  destruct (users db !! uid u) as [i |] eqn:Eu.
  - left. split; [reflexivity |]. split; [eauto |].
    eexists _, _. split; [reflexivity |]. split; reflexivity.
  - right. split; [right; reflexivity | reflexivity].
Qed.

Lemma createLesson_denied (db : Db) (newId : string) (now : Z)
    (input : CreateLessonInput) (u : UserSession) :
  LessonService.validateLessonInput input = Ok tt ->
  role u <> INSTRUCTOR ->
  LessonService.createLesson db newId now input u
  = (Throw (LessonPermissionDeniedError "create" (uid u)), db).
Proof.
  intros Hv Hr. unfold LessonService.createLesson. rewrite Hv.
  rewrite (bool_decide_eq_false_2 _ Hr). reflexivity.
Qed.

(** [requireRole(['INSTRUCTOR'])] lets instructors through, nobody else. *)
Lemma requireRole_instructor (user : option UserSession) :
  requireRole ["INSTRUCTOR"] user = Ok tt
  <-> exists u, user = Some u /\ role u = INSTRUCTOR.
Proof.
  destruct user as [u |]; simpl.
  - destruct u as [i e n r c a]. simpl. destruct r; simpl; split;
      try discriminate; try (intros (u' & [= <-] & H); discriminate H).
    + intros _. eexists. split; reflexivity.
    + intros _. reflexivity.
  - split; [discriminate | intros (u & H & _); discriminate].
Qed.

(** C4. The role gate of [createLesson] lets a caller through exactly when
    the role is [INSTRUCTOR]: on an input that passes validation, an
    administrator or a student gets [LessonPermissionDeniedError] and nothing
    is written, and an instructor gets the lesson created. An anonymous
    caller never reaches the service: [POST /api/lessons] answers 401, and
    it creates a lesson only for a verified caller whose role is
    [INSTRUCTOR]. *)
Theorem createLesson_role_gate :
  (forall db newId now input u,
     LessonService.validateLessonInput input = Ok tt ->
     (fst (LessonService.createLesson db newId now input u)
      = Throw (LessonPermissionDeniedError "create" (uid u))
      <-> role u <> INSTRUCTOR)
     /\ (role u = ADMIN \/ role u = STUDENT ->
         LessonService.createLesson db newId now input u
         = (Throw (LessonPermissionDeniedError "create" (uid u)), db))
     /\ (role u = INSTRUCTOR ->
         lessons db !! newId = None -> is_Some (users db !! uid u) ->
         isOk (fst (LessonService.createLesson db newId now input u)) = true
         /\ is_Some (lessons (snd (LessonService.createLesson
                                     db newId now input u)) !! newId)))
  /\ (forall verifyIdToken db newId now token body,
        isOk (fst (LessonRouter.postLesson verifyIdToken db newId now
                     token body)) = true ->
        exists t u, token = Some t /\ verifyIdToken t = Some u
                    /\ role u = INSTRUCTOR)
  /\ (forall verifyIdToken db newId now body,
        LessonRouter.postLesson verifyIdToken db newId now None body
        = (Throw (MiddlewareError
                    (mkAppError 401 "No authentication token provided"
                       None)), db)).
Proof.
  split; [| split].
  - intros db newId now input u Hv. split; [| split].
    + split.
      * intros Hden Hr.
        destruct (createLesson_instructor db newId now input u Hv Hr)
          as [(_ & _ & dto & l & E & _) | (_ & E)];
          rewrite E in Hden; discriminate Hden.
      * intros Hr. rewrite (createLesson_denied db newId now input u Hv Hr).
        reflexivity.
    + intros Hr. apply createLesson_denied; [exact Hv |].
      destruct Hr as [Hr | Hr]; rewrite Hr; discriminate.
    + intros Hr Hfree Huser.
      destruct (createLesson_instructor db newId now input u Hv Hr)
        as [(_ & _ & dto & l & E & _) | ([[x Hx] | Hn] & _)].
      * rewrite E. simpl. split; [reflexivity |].
        rewrite lookup_insert_eq. eauto.
      * congruence.
      * destruct Huser as [x Hx]. congruence.
  - intros verifyIdToken db newId now token body.
    unfold LessonRouter.postLesson, requireAuth.
    destruct token as [t |]; [| intros H; discriminate H].
    destruct (negb (truthyString (Some t))); [intros H; discriminate H |].
    change (default "" (Some t)) with t.
    destruct (verifyIdToken t) as [u |] eqn:Ev; [| intros H; discriminate H].
    destruct (requireRole ["INSTRUCTOR"] (Some u)) as [[] | e] eqn:Er;
      [| intros H; discriminate H].
    intros _. apply requireRole_instructor in Er as (u' & [= <-] & Hr).
    exists t, u. auto.
  - intros verifyIdToken db newId now body. reflexivity.
Qed.

Lemma createLesson_role_gate_witness :
  LessonService.createLesson Sample.db "L9" 40 (Sample.okInput 2999)
    Sample.admin1
  = (Throw (LessonPermissionDeniedError "create" "ADMIN1"), Sample.db)
  /\ isOk (fst (LessonService.createLesson Sample.db "L9" 40
                  (Sample.okInput 2999) Sample.instructorU1)) = true.
Proof.
  split.
  - apply (proj1 createLesson_role_gate Sample.db "L9" 40
             (Sample.okInput 2999) Sample.admin1 eq_refl).
    left. reflexivity.
  - apply (proj1 createLesson_role_gate Sample.db "L9" 40
             (Sample.okInput 2999) Sample.instructorU1 eq_refl).
    + reflexivity.
    + reflexivity.
    + eexists. reflexivity.
Defined.

(** * Further properties of the lessons domain *)

(** ** Updating a lesson *)

(** [updateLesson] on a lesson that exists, as its three remaining steps. *)
Lemma updateLesson_found (db : Db) (now : Z) (lessonId : string) (l : Lesson)
    (input : UpdateLessonInput) (u : UserSession) :
  lessons db !! lessonId = Some l ->
  LessonService.updateLesson db now lessonId input u
  = if negb (bool_decide (lesson_instructorId l = uid u))
       && negb (bool_decide (role u = ADMIN))
    then (Throw (LessonPermissionDeniedError lessonId (uid u)), db)
    else
      match (match upd_price input with
             | Some price => LessonService.validatePrice price
             | None => Ok tt
             end) with
      | Throw e => (Throw e, db)
      | Ok _ =>
          (LessonService.transformToLessonWithInstructor
             {| row := LessonRepository.updatedRow l input now;
                rel_instructor := users db !! lesson_instructorId l;
                rel_purchases := None; rel_reviews := None;
                rel_tags := None |},
           {| lessons :=
                <[lessonId := LessonRepository.updatedRow l input now]>
                  (lessons db);
              users := users db; purchases := purchases db;
              reviews := reviews db; tags := tags db |})
      end.
Proof.
  intros Hl. unfold LessonService.updateLesson, LessonRepository.findById,
    LessonRepository.updateLesson.
  rewrite Hl. simpl. reflexivity.
Qed.

(** The price check of [updateLesson] passes when no price is given or the
    price is in range. *)
Lemma update_price_check_ok (input : UpdateLessonInput) :
  (forall p, upd_price input = Some p -> 100 <= p <= 99999) ->
  match upd_price input with
  | Some price => LessonService.validatePrice price
  | None => Ok tt
  end = Ok tt.
Proof.
  intros H. destruct (upd_price input) as [p |]; [| reflexivity].
  apply validatePrice_in_range. apply H. reflexivity.
Qed.

(** X1. [updateLesson] refuses in a fixed order and writes nothing when it
    refuses: a lesson that does not exist gives [LessonNotFoundError]; a
    caller who is neither owner nor administrator gives
    [LessonPermissionDeniedError], whatever the price asked for; only then a
    price out of range gives [InvalidLessonPriceError]. Whenever a domain
    error is thrown the database is as it was. *)
Theorem updateLesson_rejections (db : Db) (now : Z) (lessonId : string)
    (input : UpdateLessonInput) (u : UserSession) :
  (lessons db !! lessonId = None ->
   LessonService.updateLesson db now lessonId input u
   = (Throw (LessonNotFoundError lessonId), db))
  /\ (forall l, lessons db !! lessonId = Some l ->
        ~ (lesson_instructorId l = uid u \/ role u = ADMIN) ->
        LessonService.updateLesson db now lessonId input u
        = (Throw (LessonPermissionDeniedError lessonId (uid u)), db))
  /\ (forall l p, lessons db !! lessonId = Some l ->
        lesson_instructorId l = uid u \/ role u = ADMIN ->
        upd_price input = Some p -> p < 100 \/ 99999 < p ->
        LessonService.updateLesson db now lessonId input u
        = (Throw (InvalidLessonPriceError p), db))
  /\ (forall e : LessonError,
        fst (LessonService.updateLesson db now lessonId input u) = Throw e ->
        snd (LessonService.updateLesson db now lessonId input u) = db).
Proof.
  split; [| split; [| split]].
  - intros Hl. unfold LessonService.updateLesson, LessonRepository.findById.
    rewrite Hl. reflexivity.
  - intros l Hl Hno. rewrite (updateLesson_found db now lessonId l input u Hl).
    destruct (negb (bool_decide (lesson_instructorId l = uid u))
              && negb (bool_decide (role u = ADMIN))) eqn:E; [reflexivity |].
    apply mutate_check in E. contradiction.
  - intros l p Hl Hm Hp Hout.
    rewrite (updateLesson_found db now lessonId l input u Hl).
    apply mutate_check in Hm. rewrite Hm, Hp.
    rewrite (validatePrice_out_of_range p Hout). reflexivity.
  - intros e. destruct (lessons db !! lessonId) as [l |] eqn:Hl.
    + rewrite (updateLesson_found db now lessonId l input u Hl).
      destruct (negb (bool_decide (lesson_instructorId l = uid u))
                && negb (bool_decide (role u = ADMIN))); [reflexivity |].
      destruct (match upd_price input with
                | Some price => LessonService.validatePrice price
                | None => Ok tt
                end); [| reflexivity].
      unfold LessonService.transformToLessonWithInstructor. simpl.
      destruct (users db !! lesson_instructorId l); simpl; discriminate.
    + unfold LessonService.updateLesson, LessonRepository.findById.
      rewrite Hl. reflexivity.
Qed.

Lemma updateLesson_rejections_witness :
  LessonService.updateLesson Sample.db 50 "L1"
    (mkUpdateLessonInput None None (Some 5) None None None) Sample.studentU2
  = (Throw (LessonPermissionDeniedError "L1" "U2"), Sample.db)
  /\ LessonService.updateLesson Sample.db 50 "L1"
       (mkUpdateLessonInput None None (Some 5) None None None)
       Sample.instructorU1
     = (Throw (InvalidLessonPriceError 5), Sample.db).
Proof.
  split.
  - apply (proj1 (proj2 (updateLesson_rejections Sample.db 50 "L1"
             (mkUpdateLessonInput None None (Some 5) None None None)
             Sample.studentU2)) Sample.L1 eq_refl).
    intros [H | H]; discriminate H.
  - apply (proj1 (proj2 (proj2 (updateLesson_rejections Sample.db 50 "L1"
             (mkUpdateLessonInput None None (Some 5) None None None)
             Sample.instructorU1))) Sample.L1 5 eq_refl).
    + left. reflexivity.
    + reflexivity.
    + left. lia.
Defined.

(** X2. An update that goes through changes the fields it was given and
    nothing else: the lesson keeps its id, its owner and its creation time,
    [updatedAt] becomes the time of the call, every other lesson and every
    other table is as before. *)
Theorem updateLesson_success (db : Db) (now : Z) (lessonId : string)
    (l : Lesson) (input : UpdateLessonInput) (u : UserSession) :
  lessons db !! lessonId = Some l ->
  lesson_instructorId l = uid u \/ role u = ADMIN ->
  (forall p, upd_price input = Some p -> 100 <= p <= 99999) ->
  is_Some (users db !! lesson_instructorId l) ->
  let result := LessonService.updateLesson db now lessonId input u in
  exists dto l',
    fst result = Ok dto
    /\ lessons (snd result) !! lessonId = Some l'
    /\ (lesson_id l' = lesson_id l
        /\ lesson_instructorId l' = lesson_instructorId l
        /\ lesson_createdAt l' = lesson_createdAt l
        /\ lesson_updatedAt l' = now)
    /\ (lesson_title l' = default (lesson_title l) (upd_title input)
        /\ lesson_price l' = default (lesson_price l) (upd_price input)
        /\ lesson_published l'
           = default (lesson_published l) (upd_published input)
        /\ lesson_description l'
           = from_option Some (lesson_description l) (upd_description input)
        /\ lesson_category l'
           = from_option Some (lesson_category l) (upd_category input)
        /\ lesson_thumbnailUrl l'
           = from_option Some (lesson_thumbnailUrl l)
               (upd_thumbnailUrl input))
    /\ (dto_id dto = lesson_id l'
        /\ dto_title dto = lesson_title l'
        /\ dto_price dto = lesson_price l'
        /\ dto_published dto = lesson_published l'
        /\ dto_updatedAt dto = now)
    /\ (forall other, other <> lessonId ->
          lessons (snd result) !! other = lessons db !! other)
    /\ users (snd result) = users db
    /\ purchases (snd result) = purchases db
    /\ reviews (snd result) = reviews db
    /\ tags (snd result) = tags db.
Proof.
  intros Hl Hm Hp [i Hi] result. subst result.
  rewrite (updateLesson_found db now lessonId l input u Hl).
  apply mutate_check in Hm. rewrite Hm.
  rewrite (update_price_check_ok input Hp).
  unfold LessonService.transformToLessonWithInstructor. simpl. rewrite Hi.
  eexists _, (LessonRepository.updatedRow l input now). simpl.
  split; [reflexivity |].
  split; [apply lookup_insert_eq |].
  split; [repeat split |].
  split.
  { repeat split; simpl;
      first [ reflexivity
            | destruct (upd_description input); reflexivity
            | destruct (upd_category input); reflexivity
            | destruct (upd_thumbnailUrl input); reflexivity ]. }
  split; [repeat split |].
  split; [| repeat split].
  intros other Hne. apply lookup_insert_ne. congruence.
Qed.

Lemma updateLesson_success_witness :
  exists dto l',
    fst (LessonService.updateLesson Sample.db 50 "L1"
           (mkUpdateLessonInput (Some "Spike") None None None (Some true)
              None)
           Sample.admin1) = Ok dto
    /\ lessons (snd (LessonService.updateLesson Sample.db 50 "L1"
                       (mkUpdateLessonInput (Some "Spike") None None None
                          (Some true) None)
                       Sample.admin1)) !! "L1" = Some l'
    /\ lesson_instructorId l' = "U1"
    /\ lesson_title l' = "Spike"
    /\ lesson_published l' = true.
Proof.
  destruct (updateLesson_success Sample.db 50 "L1" Sample.L1
              (mkUpdateLessonInput (Some "Spike") None None None (Some true)
                 None)
              Sample.admin1)
    as (dto & l' & H1 & H2 & (_ & H3 & _) & (H4 & _ & H5 & _) & _).
  - reflexivity.
  - right. reflexivity.
  - intros p H. discriminate H.
  - eexists. reflexivity.
  - exists dto, l'. repeat split; assumption.
Defined.

(** X3. [updateLesson] checks the price only. A title that [createLesson]
    would refuse, empty once trimmed or longer than 200, is refused by
    [validateLessonInput] and yet stored by an update. *)
Theorem updateLesson_skips_title_checks (db : Db) (now : Z)
    (lessonId : string) (l : Lesson) (u : UserSession) (t : string) :
  lessons db !! lessonId = Some l ->
  lesson_instructorId l = uid u \/ role u = ADMIN ->
  is_Some (users db !! lesson_instructorId l) ->
  trim t = "" \/ (200 < String.length t)%nat ->
  (forall d p c i,
     exists m, LessonService.validateLessonInput (mkCreateLessonInput t d p c i)
               = Throw (LessonValidationError "title" m))
  /\ (exists dto l',
        LessonService.updateLesson db now lessonId
          (mkUpdateLessonInput (Some t) None None None None None) u
        = (Ok dto, {| lessons := <[lessonId := l']> (lessons db);
                      users := users db; purchases := purchases db;
                      reviews := reviews db; tags := tags db |})
        /\ lesson_title l' = t /\ dto_title dto = t).
Proof.
  intros Hl Hm [i Hi] Hbad. split.
  - intros d p c i'.
    destruct (validateLessonInput_cases (mkCreateLessonInput t d p c i'))
      as [[_ E] | [(_ & _ & E) | [(Ht & Hlen & _) | (Ht & Hlen & _)]]];
      simpl in *; eauto; destruct Hbad as [Hb | Hb];
      first [ contradiction | lia ].
  - rewrite (updateLesson_found db now lessonId l _ u Hl).
    apply mutate_check in Hm. rewrite Hm. simpl.
    unfold LessonService.transformToLessonWithInstructor. simpl. rewrite Hi.
    eexists _, _. split; [reflexivity |]. split; reflexivity.
Qed.

Lemma updateLesson_skips_title_checks_witness :
  exists dto,
    fst (LessonService.updateLesson Sample.db 50 "L2"
           (mkUpdateLessonInput (Some "  ") None None None None None)
           Sample.instructorU1) = Ok dto
    /\ dto_title dto = "  ".
Proof.
  destruct (updateLesson_skips_title_checks Sample.db 50 "L2" Sample.L2
              Sample.instructorU1 "  ")
    as (_ & dto & l' & H & _ & Ht).
  - reflexivity.
  - left. reflexivity.
  - eexists. reflexivity.
  - left. reflexivity.
  - exists dto. rewrite H. split; [reflexivity | exact Ht].
Defined.

(** X4. Publishing and unpublishing through [updateLesson] switch the
    visibility gate of [getLessonById]: once the owner or an administrator
    has set [published] to [true] every caller, the anonymous one included,
    gets the lesson; once it is set to [false] every caller who is neither
    owner nor administrator gets [LessonNotPublishedError]. *)
Theorem updateLesson_switches_visibility (db : Db) (now : Z)
    (lessonId : string) (l : Lesson) (u : UserSession) :
  lessons db !! lessonId = Some l ->
  lesson_instructorId l = uid u \/ role u = ADMIN ->
  is_Some (users db !! lesson_instructorId l) ->
  let set flag :=
    snd (LessonService.updateLesson db now lessonId
           (mkUpdateLessonInput None None None None (Some flag) None) u) in
  (forall caller,
     isOk (LessonService.getLessonById (set true) lessonId caller) = true)
  /\ (forall caller,
        ~ (exists v, caller = Some v
                     /\ (lesson_instructorId l = uid v \/ role v = ADMIN)) ->
        LessonService.getLessonById (set false) lessonId caller
        = Throw (LessonNotPublishedError lessonId))
  /\ isOk (LessonService.getLessonById (set false) lessonId (Some u)) = true.
Proof.
  intros Hl Hm Hi set.
  assert (Hset : forall flag,
    exists l', lessons (set flag) !! lessonId = Some l'
               /\ lesson_published l' = flag
               /\ lesson_instructorId l' = lesson_instructorId l
               /\ users (set flag) = users db).
  { intros flag. subst set. simpl.
    rewrite (updateLesson_found db now lessonId l _ u Hl).
    pose proof Hm as Hm'. apply mutate_check in Hm'. rewrite Hm'. simpl.
    eexists. split; [apply lookup_insert_eq |].
    split; [reflexivity |]. split; reflexivity. }
  split; [| split].
  - intros caller. destruct (Hset true) as (l' & Hl' & Hpub & Ho & Hu).
    destruct (getLessonById_granted (set true) lessonId l' caller Hl')
      as (dto & -> & _); [rewrite Hu, Ho; exact Hi | left; exact Hpub |].
    reflexivity.
  - intros caller Hno. destruct (Hset false) as (l' & Hl' & Hpub & Ho & Hu).
    apply (getLessonById_denied (set false) lessonId l' caller Hl' Hpub).
    rewrite Ho. exact Hno.
  - destruct (Hset false) as (l' & Hl' & Hpub & Ho & Hu).
    destruct (getLessonById_granted (set false) lessonId l' (Some u) Hl')
      as (dto & -> & _); [rewrite Hu, Ho; exact Hi | | reflexivity].
    right. exists u. split; [reflexivity |]. rewrite Ho. exact Hm.
Qed.

Lemma updateLesson_switches_visibility_witness :
  isOk (LessonService.getLessonById
          (snd (LessonService.updateLesson Sample.db 50 "L1"
                  (mkUpdateLessonInput None None None None (Some true) None)
                  Sample.instructorU1))
          "L1" None) = true.
Proof.
  apply (proj1 (updateLesson_switches_visibility Sample.db 50 "L1" Sample.L1
                  Sample.instructorU1 eq_refl (or_introl eq_refl)
                  (ex_intro _ _ eq_refl))).
Defined.

(** ** Creating, finding and deleting *)

Lemma length_pos_elem_of {A : Type} (l : list A) :
  (0 < length l)%nat <-> exists x, x ∈ l.
Proof.
  destruct l as [| a l]; simpl; split.
  - lia.
  - intros [x Hx]. inversion Hx.
  - intros _. exists a. left.
  - intros _. lia.
Qed.

(** X5. The two existence queries of the repository agree with the lookup
    by key: [existsById] holds exactly for the keys [findById] finds, and
    [isLessonOwnedByInstructor] exactly when the lesson found has that
    instructor; for a lesson that does not exist both are [false]. *)
Theorem existence_queries (db : Db) (lessonId : string) :
  (LessonRepository.existsById db lessonId = true
   <-> is_Some (lessons db !! lessonId))
  /\ (forall options,
        LessonRepository.existsById db lessonId = true
        <-> is_Some (LessonRepository.findById db lessonId options))
  /\ (forall i,
        LessonRepository.isLessonOwnedByInstructor db lessonId i = true
        <-> exists l, lessons db !! lessonId = Some l
                      /\ lesson_instructorId l = i)
  /\ (forall i,
        LessonRepository.isLessonOwnedByInstructor db lessonId i = true ->
        LessonRepository.existsById db lessonId = true).
Proof.
  assert (He : LessonRepository.existsById db lessonId = true
               <-> is_Some (lessons db !! lessonId)).
  { unfold LessonRepository.existsById. rewrite bool_decide_eq_true,
      length_pos_elem_of. split.
    - intros [[k l] H]. apply list_elem_of_filter in H as [Hk H].
      simpl in Hk. subst k. apply elem_of_map_to_list in H. eauto.
    - intros [l Hl]. exists (lessonId, l). apply list_elem_of_filter.
      split; [reflexivity | apply elem_of_map_to_list; exact Hl]. }
  assert (Ho : forall i,
    LessonRepository.isLessonOwnedByInstructor db lessonId i = true
    <-> exists l, lessons db !! lessonId = Some l
                  /\ lesson_instructorId l = i).
  { intros i. unfold LessonRepository.isLessonOwnedByInstructor.
    rewrite bool_decide_eq_true, length_pos_elem_of. split.
    - intros [[k l] H]. apply list_elem_of_filter in H as [[Hk Hi] H].
      simpl in Hk, Hi. subst k. apply elem_of_map_to_list in H. eauto.
    - intros (l & Hl & Hi). exists (lessonId, l). apply list_elem_of_filter.
      split; [split; [reflexivity | exact Hi] |].
      apply elem_of_map_to_list. exact Hl. }
  split; [exact He |]. split; [| split; [exact Ho |]].
  - intros options. rewrite He. unfold LessonRepository.findById.
    destruct (lessons db !! lessonId); simpl; split; intros [x Hx];
      first [ discriminate | eauto ].
  - intros i Hi. apply He. apply Ho in Hi as (l & Hl & _). eauto.
Qed.

(** X6. When [createLesson] returns, the lesson is stored under the new key
    with the caller as its owner, whoever the input names as instructor,
    with the input's title, description, price and category and the time of
    the call. Its [published] is [input.published || false]: the lesson is
    unpublished unless the object given carries [published: true], as an
    object with the declared properties only never does. The caller is an
    instructor, the input passed validation and the key was free; every
    other lesson and every other table is as before. *)
Theorem createLesson_success (db : Db) (newId : string) (now : Z)
    (input : CreateLessonInput) (u : UserSession) :
  let result := LessonService.createLesson db newId now input u in
  isOk (fst result) = true ->
  (LessonService.validateLessonInput input = Ok tt
   /\ role u = INSTRUCTOR
   /\ lessons db !! newId = None
   /\ is_Some (users db !! uid u))
  /\ (exists l,
        lessons (snd result) !! newId = Some l
        /\ lesson_id l = newId
        /\ lesson_instructorId l = uid u
        /\ lesson_published l = default false (input_published input)
        /\ (input_published input <> Some true -> lesson_published l = false)
        /\ lesson_thumbnailUrl l = input_thumbnailUrl input
        /\ lesson_title l = input_title input
        /\ lesson_description l = input_description input
        /\ lesson_price l = input_price input
        /\ lesson_category l = input_category input
        /\ lesson_createdAt l = now /\ lesson_updatedAt l = now)
  /\ (forall other, other <> newId ->
        lessons (snd result) !! other = lessons db !! other)
  /\ users (snd result) = users db
  /\ purchases (snd result) = purchases db
  /\ reviews (snd result) = reviews db
  /\ tags (snd result) = tags db.
Proof.
  intros result Hok. subst result.
  unfold LessonService.createLesson in *.
  destruct (LessonService.validateLessonInput input) as [[] | e] eqn:Hv;
    [| discriminate Hok].
  destruct (decide (role u = INSTRUCTOR)) as [Hr | Hr].
  2:{ rewrite (bool_decide_eq_false_2 _ Hr) in Hok. discriminate Hok. }
  rewrite (bool_decide_eq_true_2 _ Hr) in *. simpl in *.
  unfold LessonRepository.createLesson in *. simpl in *.
  destruct (lessons db !! newId) as [l0 |] eqn:El; [discriminate Hok |].
  destruct (users db !! uid u) as [i |] eqn:Eu; [| discriminate Hok].
  simpl. split; [repeat split; eauto |].
  split.
  { eexists. split; [apply lookup_insert_eq |]. simpl.
    repeat split.
    destruct (input_published input) as [[] |]; simpl; congruence. }
  split; [| repeat split].
  intros other Hne. apply lookup_insert_ne. congruence.
Qed.

Lemma createLesson_success_witness :
  exists l,
    lessons (snd (LessonService.createLesson Sample.db "L9" 40
                    (mkCreateLessonObject "Yo-yo" None 2999 None "U3"
                       (Some true) None)
                    Sample.instructorU1)) !! "L9" = Some l
    /\ lesson_instructorId l = "U1"
    /\ lesson_published l = true.
Proof.
  destruct (createLesson_success Sample.db "L9" 40
              (mkCreateLessonObject "Yo-yo" None 2999 None "U3" (Some true)
                 None)
              Sample.instructorU1 eq_refl)
    as (_ & (l & H1 & _ & H2 & H3 & _) & _).
  exists l. repeat split; assumption.
Defined.

(** X7. [createLesson] validates before it looks at the role, the reverse
    of update and delete: an input that fails validation gives that error to
    every caller, instructor or not. Whatever [createLesson] throws, the
    database is as it was. *)
Theorem createLesson_failure (db : Db) (newId : string) (now : Z)
    (input : CreateLessonInput) (u : UserSession) :
  (forall e, LessonService.validateLessonInput input = Throw e ->
             LessonService.createLesson db newId now input u
             = (Throw e, db))
  /\ (forall e,
        fst (LessonService.createLesson db newId now input u) = Throw e ->
        snd (LessonService.createLesson db newId now input u) = db).
Proof.
  split.
  - intros e Hv. unfold LessonService.createLesson. rewrite Hv. reflexivity.
  - intros e. unfold LessonService.createLesson.
    destruct (LessonService.validateLessonInput input); [| reflexivity].
    destruct (negb (bool_decide (role u = INSTRUCTOR))); [reflexivity |].
    unfold LessonRepository.createLesson. simpl.
    destruct (lessons db !! newId); [reflexivity |].
    destruct (users db !! uid u); [| reflexivity].
    simpl. discriminate.
Qed.

Lemma createLesson_failure_witness :
  LessonService.createLesson Sample.db "L9" 40 (Sample.okInput 50)
    Sample.studentU2
  = (Throw (InvalidLessonPriceError 50), Sample.db).
Proof.
  apply (proj1 (createLesson_failure Sample.db "L9" 40 (Sample.okInput 50)
                  Sample.studentU2)).
  reflexivity.
Defined.

(** What a successful [createLesson] leaves in the database. *)
Lemma createLesson_stored (db : Db) (newId : string) (now : Z)
    (input : CreateLessonInput) (u : UserSession) :
  isOk (fst (LessonService.createLesson db newId now input u)) = true ->
  lessons db !! newId = None
  /\ is_Some (users db !! uid u)
  /\ exists l,
       snd (LessonService.createLesson db newId now input u)
       = {| lessons := <[newId := l]> (lessons db);
            users := users db; purchases := purchases db;
            reviews := reviews db; tags := tags db |}
       /\ lesson_instructorId l = uid u
       /\ lesson_published l = default false (input_published input).
Proof.
  intros Hok. unfold LessonService.createLesson in *.
  destruct (LessonService.validateLessonInput input) as [[] | e];
    [| discriminate Hok].
  destruct (negb (bool_decide (role u = INSTRUCTOR))); [discriminate Hok |].
  unfold LessonRepository.createLesson in *. simpl in *.
  destruct (lessons db !! newId) as [l0 |]; [discriminate Hok |].
  destruct (users db !! uid u) as [i |]; [| discriminate Hok].
  simpl. split; [reflexivity |]. split; [eauto |].
  eexists. split; [reflexivity |]. split; reflexivity.
Qed.

Lemma createLesson_lookup (db : Db) (newId : string) (now : Z)
    (input : CreateLessonInput) (u : UserSession) :
  isOk (fst (LessonService.createLesson db newId now input u)) = true ->
  exists l,
    lessons (snd (LessonService.createLesson db newId now input u)) !! newId
    = Some l
    /\ users (snd (LessonService.createLesson db newId now input u))
       = users db
    /\ is_Some (users db !! uid u)
    /\ lesson_instructorId l = uid u
    /\ lesson_published l = default false (input_published input).
Proof.
  intros Hok.
  destruct (createLesson_stored db newId now input u Hok)
    as (_ & Hu & l & -> & Ho & Hp).
  exists l. simpl. split; [apply lookup_insert_eq | auto].
Qed.

(** X8. Who sees a lesson just created follows from what was stored.
    Created from an object that does not carry [published: true], it is a
    draft: [getLessonById] returns it to its creator and answers
    [LessonNotPublishedError] to the anonymous caller and to every caller who
    is neither the creator nor an administrator. Created from an object that
    carries [published: true], it is returned to every caller at once. A
    lesson created through [POST /api/lessons] is always a draft, the parsed
    body having no [published]. *)
Theorem created_lesson_is_draft (db : Db) (newId : string) (now : Z)
    (input : CreateLessonInput) (u : UserSession) :
  let db' := snd (LessonService.createLesson db newId now input u) in
  isOk (fst (LessonService.createLesson db newId now input u)) = true ->
  isOk (LessonService.getLessonById db' newId (Some u)) = true
  /\ (input_published input <> Some true ->
      LessonService.getLessonById db' newId None
      = Throw (LessonNotPublishedError newId)
      /\ (forall v, uid v <> uid u -> role v <> ADMIN ->
            LessonService.getLessonById db' newId (Some v)
            = Throw (LessonNotPublishedError newId)))
  /\ (input_published input = Some true ->
      forall caller,
        isOk (LessonService.getLessonById db' newId caller) = true)
  /\ (forall verifyIdToken token body,
        isOk (fst (LessonRouter.postLesson verifyIdToken db newId now token
                     body)) = true ->
        LessonService.getLessonById
          (snd (LessonRouter.postLesson verifyIdToken db newId now token
                  body))
          newId None
        = Throw (LessonNotPublishedError newId)).
Proof.
  assert (Hdraft : forall input0 u0,
    isOk (fst (LessonService.createLesson db newId now input0 u0)) = true ->
    input_published input0 <> Some true ->
    LessonService.getLessonById
      (snd (LessonService.createLesson db newId now input0 u0)) newId None
    = Throw (LessonNotPublishedError newId)
    /\ (forall v, uid v <> uid u0 -> role v <> ADMIN ->
          LessonService.getLessonById
            (snd (LessonService.createLesson db newId now input0 u0))
            newId (Some v)
          = Throw (LessonNotPublishedError newId))).
  { intros input0 u0 Hok Hnp.
    destruct (createLesson_lookup db newId now input0 u0 Hok)
      as (l & Hl & _ & _ & Ho & Hp).
    assert (Hp' : lesson_published l = false).
    { rewrite Hp. destruct (input_published input0) as [[] |];
        simpl; congruence. }
    split.
    - apply (getLessonById_denied _ newId l None Hl Hp').
      intros (v & H & _). discriminate H.
    - intros v Hv Ha.
      apply (getLessonById_denied _ newId l (Some v) Hl Hp').
      intros (v' & [= <-] & [H | H]); congruence. }
  intros db' Hok. subst db'.
  destruct (createLesson_lookup db newId now input u Hok)
    as (l & Hl & Husers & Hu & Ho & Hp).
  split; [| split; [| split]].
  - destruct (getLessonById_granted _ newId l (Some u) Hl)
      as (dto & -> & _); [rewrite Husers, Ho; exact Hu | | reflexivity].
    right. exists u. split; [reflexivity | left; exact Ho].
  - intros Hnp. apply Hdraft; assumption.
  - intros Hpub caller.
    destruct (getLessonById_granted _ newId l caller Hl)
      as (dto & -> & _); [rewrite Husers, Ho; exact Hu | | reflexivity].
    left. rewrite Hp, Hpub. reflexivity.
  - intros verifyIdToken token body.
    unfold LessonRouter.postLesson.
    destruct (requireAuth verifyIdToken token) as [user | e];
      [| intros H; discriminate H].
    destruct (requireRole ["INSTRUCTOR"] (Some user)) as [[] | e];
      [| intros H; discriminate H].
    destruct (LessonRouter.validateCreateLessonRequest body) as [body' | e];
      [| intros H; discriminate H].
    intros Hok'. apply Hdraft; [exact Hok' | discriminate].
Qed.

Lemma created_lesson_is_draft_witness :
  LessonService.getLessonById
    (snd (LessonService.createLesson Sample.db "L9" 40 (Sample.okInput 2999)
            Sample.instructorU1))
    "L9" None
  = Throw (LessonNotPublishedError "L9")
  /\ isOk (LessonService.getLessonById
             (snd (LessonService.createLesson Sample.db "L9" 40
                     (mkCreateLessonObject "ok" None 2999 None "U1"
                        (Some true) None)
                     Sample.instructorU1))
             "L9" None) = true.
Proof.
  split.
  - apply (proj1 (proj2 (created_lesson_is_draft Sample.db "L9" 40
                           (Sample.okInput 2999) Sample.instructorU1
                           eq_refl))).
    discriminate.
  - apply (proj1 (proj2 (proj2 (created_lesson_is_draft Sample.db "L9" 40
                           (mkCreateLessonObject "ok" None 2999 None "U1"
                              (Some true) None)
                           Sample.instructorU1 eq_refl)))).
    reflexivity.
Defined.

(** X9. Deleting undoes creating: when [createLesson] has returned and no
    purchase, review or tag refers to the new key, [deleteLesson] by the
    creator returns [true] and the database is the one before the
    creation. *)
Theorem create_then_delete (db : Db) (newId : string) (now : Z)
    (input : CreateLessonInput) (u : UserSession) :
  isOk (fst (LessonService.createLesson db newId now input u)) = true ->
  LessonRepository.purchasesOf db newId = [] ->
  LessonRepository.reviewsOf db newId = [] ->
  LessonRepository.tagsOf db newId = [] ->
  LessonService.deleteLesson
    (snd (LessonService.createLesson db newId now input u)) newId u
  = (Ok true, db).
Proof.
  intros Hok Hnone Hrev Htag.
  destruct (createLesson_stored db newId now input u Hok)
    as (Hfree & _ & l & -> & Ho & _).
  rewrite (deleteLesson_found _ newId l u (lookup_insert_eq _ _ _)).
  assert (Hm : negb (bool_decide (lesson_instructorId l = uid u))
               && negb (bool_decide (role u = ADMIN)) = false).
  { apply mutate_check. left. exact Ho. }
  rewrite Hm.
  assert (Hd : LessonRepository.hasDependencies
                 {| lessons := <[newId := l]> (lessons db);
                    users := users db; purchases := purchases db;
                    reviews := reviews db; tags := tags db |} newId
               = false).
  { apply hasDependencies_false. auto. }
  rewrite Hd.
  unfold LessonRepository.purchasesOf in *. simpl. rewrite Hnone. simpl.
  f_equal. unfold LessonRepository.withoutLesson. simpl.
  rewrite delete_insert_eq, (delete_id _ _ Hfree).
  destruct db; reflexivity.
Qed.

Lemma create_then_delete_witness :
  LessonService.deleteLesson
    (snd (LessonService.createLesson Sample.db "L9" 40 (Sample.okInput 2999)
            Sample.instructorU1))
    "L9" Sample.instructorU1
  = (Ok true, Sample.db).
Proof.
  apply (create_then_delete Sample.db "L9" 40 (Sample.okInput 2999)
           Sample.instructorU1); reflexivity.
Defined.

(** X10. Once [deleteLesson] has returned, the lesson is gone for every
    method: [getLessonById], [updateLesson] and a second [deleteLesson]
    answer [LessonNotFoundError], [existsById] is [false]; the other lessons
    and the other tables are as before. *)
Theorem deleteLesson_then_not_found (db : Db) (lessonId : string)
    (u : UserSession) :
  let db' := snd (LessonService.deleteLesson db lessonId u) in
  isOk (fst (LessonService.deleteLesson db lessonId u)) = true ->
  (forall caller,
     LessonService.getLessonById db' lessonId caller
     = Throw (LessonNotFoundError lessonId))
  /\ (forall v,
        LessonService.deleteLesson db' lessonId v
        = (Throw (LessonNotFoundError lessonId), db'))
  /\ (forall now input v,
        LessonService.updateLesson db' now lessonId input v
        = (Throw (LessonNotFoundError lessonId), db'))
  /\ LessonRepository.existsById db' lessonId = false
  /\ (forall other, other <> lessonId ->
        lessons db' !! other = lessons db !! other)
  /\ (users db' = users db /\ purchases db' = purchases db
      /\ reviews db' = reviews db /\ tags db' = tags db).
Proof.
  intros db' Hok. subst db'.
  destruct (lessons db !! lessonId) as [l |] eqn:Hl.
  2:{ unfold LessonService.deleteLesson, LessonRepository.findById in Hok.
      rewrite Hl in Hok. discriminate Hok. }
  rewrite (deleteLesson_found db lessonId l u Hl) in *.
  destruct (negb (bool_decide (lesson_instructorId l = uid u))
            && negb (bool_decide (role u = ADMIN))); [discriminate Hok |].
  destruct (0 <? length (LessonRepository.purchasesOf db lessonId))%nat;
    [discriminate Hok |].
  destruct (LessonRepository.hasDependencies db lessonId);
    [discriminate Hok |].
  simpl.
  assert (Hgone : lessons (LessonRepository.withoutLesson db lessonId)
                    !! lessonId = None) by apply lookup_delete_eq.
  split; [| split; [| split; [| split; [| split]]]].
  - intros caller. unfold LessonService.getLessonById,
      LessonRepository.findById. rewrite Hgone. reflexivity.
  - intros v. unfold LessonService.deleteLesson, LessonRepository.findById.
    rewrite Hgone. reflexivity.
  - intros now input v. unfold LessonService.updateLesson,
      LessonRepository.findById. rewrite Hgone. reflexivity.
  - apply not_true_is_false. intros H.
    unfold LessonRepository.existsById in H.
    rewrite bool_decide_eq_true, length_pos_elem_of in H.
    destruct H as [[k x] H]. apply list_elem_of_filter in H as [Hk H].
    simpl in Hk. subst k. apply elem_of_map_to_list in H. congruence.
  - intros other Hne. simpl. apply lookup_delete_ne. congruence.
  - repeat split.
Qed.

Lemma deleteLesson_then_not_found_witness :
  LessonService.getLessonById
    (snd (LessonService.deleteLesson Sample.db "L1" Sample.admin1))
    "L1" (Some Sample.instructorU1)
  = Throw (LessonNotFoundError "L1").
Proof.
  apply (proj1 (deleteLesson_then_not_found Sample.db "L1" Sample.admin1
                  eq_refl)).
Defined.



(** ** Listing an instructor's lessons *)

#[local] Instance newerFirst_total : Total LessonRepository.newerFirst.
Proof. intros a b. unfold LessonRepository.newerFirst. lia. Qed.

#[local] Instance newerFirst_trans : Transitive LessonRepository.newerFirst.
Proof. intros a b c. unfold LessonRepository.newerFirst. lia. Qed.

(** The rows [findByInstructorId] selects, before they are put in order. *)
Lemma findByInstructorId_rows (db : Db) (i : string) (incl : bool)
    (raw : LessonWithRelations) :
  raw ∈ LessonRepository.findByInstructorId db i incl
  <-> exists k l,
        lessons db !! k = Some l
        /\ lesson_instructorId l = i
        /\ (incl = true \/ lesson_published l = true)
        /\ raw = LessonRepository.withListedRelations db (k, l).
Proof.
  unfold LessonRepository.findByInstructorId.
  rewrite list_elem_of_fmap. split.
  - intros ([k l] & -> & H). rewrite merge_sort_Permutation in H.
    apply list_elem_of_filter in H as [[Hi Hv] H]. simpl in Hi, Hv.
    apply elem_of_map_to_list in H. exists k, l. auto.
  - intros (k & l & Hl & Hi & Hv & ->). exists (k, l).
    split; [reflexivity |]. rewrite merge_sort_Permutation.
    apply list_elem_of_filter. split; [split; assumption |].
    apply elem_of_map_to_list. exact Hl.
Qed.

(** X12. [findByInstructorId] returns exactly the lessons of the instructor
    that are published, or all of them when unpublished ones are included;
    each once, the newest first, every one before all that were created
    earlier; each with all its purchases and reviews. An instructor without
    lessons gets the empty list. *)
Theorem findByInstructorId_lists (db : Db) (i : string) (incl : bool) :
  let found := LessonRepository.findByInstructorId db i incl in
  (forall l,
     l ∈ row <$> found
     <-> exists k, lessons db !! k = Some l
                   /\ lesson_instructorId l = i
                   /\ (incl = true \/ lesson_published l = true))
  /\ StronglySorted
       (fun a b => lesson_createdAt (row b) <= lesson_createdAt (row a))
       found
  /\ length found
     = length (filter (fun kl : string * Lesson =>
                         lesson_instructorId kl.2 = i
                         /\ (incl = true \/ lesson_published kl.2 = true))
                      (map_to_list (lessons db)))
  /\ (forall raw, raw ∈ found ->
        exists k, lessons db !! k = Some (row raw)
                  /\ rel_purchases raw
                     = Some (LessonRepository.purchasesOf db k)
                  /\ rel_reviews raw = Some (LessonRepository.reviewsOf db k)
                  /\ rel_instructor raw
                     = users db !! lesson_instructorId (row raw))
  /\ ((forall k l, lessons db !! k = Some l -> lesson_instructorId l <> i) ->
      found = []).
Proof.
  intros found. subst found.
  split; [| split; [| split; [| split]]].
  - intros l. rewrite list_elem_of_fmap. split.
    + intros (raw & -> & H). apply findByInstructorId_rows in H
        as (k & l & Hl & Hi & Hv & ->). exists k. auto.
    + intros (k & Hl & Hi & Hv).
      exists (LessonRepository.withListedRelations db (k, l)).
      split; [reflexivity |]. apply findByInstructorId_rows.
      exists k, l. auto.
  - unfold LessonRepository.findByInstructorId.
    apply (StronglySorted_fmap _ LessonRepository.newerFirst).
    + intros a b H. exact H.
    + apply StronglySorted_merge_sort; apply _.
  - unfold LessonRepository.findByInstructorId.
    rewrite length_fmap. apply Permutation_length, merge_sort_Permutation.
  - intros raw H. apply findByInstructorId_rows in H
      as (k & l & Hl & Hi & Hv & ->). exists k. simpl. auto.
  - intros Hnone.
    destruct (LessonRepository.findByInstructorId db i incl) as [| raw rest]
      eqn:E; [reflexivity |].
    assert (H : raw ∈ LessonRepository.findByInstructorId db i incl)
      by (rewrite E; left).
    apply findByInstructorId_rows in H as (k & l & Hl & Hi & _).
    exfalso. exact (Hnone k l Hl Hi).
Qed.

Lemma findByInstructorId_lists_witness :
  LessonRepository.findByInstructorId Sample.db "U3" false = [].
Proof.
  apply (proj2 (proj2 (proj2 (proj2
           (findByInstructorId_lists Sample.db "U3" false))))).
  intros k l Hl.
  destruct (decide (k = "L1")) as [-> | H1];
    [injection Hl as <-; discriminate |].
  destruct (decide (k = "L2")) as [-> | H2];
    [injection Hl as <-; discriminate |].
  destruct (decide (k = "L3")) as [-> | H3];
    [injection Hl as <-; discriminate |].
  unfold Sample.db in Hl. simpl in Hl.
  rewrite !lookup_insert_ne in Hl by congruence.
  rewrite lookup_empty in Hl. discriminate Hl.
Defined.

(** [mapM] over [Result]: when the function returns on every element, so
    does [mapM], with the results in the order of the elements. *)
Lemma mapM_Result_Ok {A B : Type} (f : A -> Result B) (l : list A) :
  (forall x, x ∈ l -> exists y, f x = Ok y) ->
  exists ys, mapM f l = Ok ys /\ Forall2 (fun x y => f x = Ok y) l ys.
Proof.
  induction l as [| a l IH]; intros H.
  - exists []. split; [reflexivity | constructor].
  - destruct (H a) as [y Hy]; [left |].
    destruct IH as (ys & Hys & HF).
    { intros x Hx. apply H. right. exact Hx. }
    exists (y :: ys). split; [| constructor; assumption].
    change (mapM f (a :: l))
      with (f a ≫= fun y0 => mapM f l ≫= fun k => mret (y0 :: k)).
    rewrite Hy, Hys. reflexivity.
Qed.

(** What [getLessonsByInstructor] lists, and to whom. *)
Lemma getLessonsByInstructor_listed (db : Db) (i : string)
    (incl : bool) (caller : option UserSession) :
  instructorsExist db ->
  let authorized :=
    exists u, caller = Some u /\ (uid u = i \/ role u = ADMIN) in
  exists listed,
    LessonService.getLessonsByInstructor db i incl caller = Ok listed
    /\ (forall dto, dto ∈ listed ->
          exists k l, lessons db !! k = Some l
                      /\ lesson_instructorId l = i
                      /\ dto_id (base dto) = lesson_id l
                      /\ dto_published (base dto) = lesson_published l
                      /\ stats dto
                         = LessonRepository.getLessonStats db (lesson_id l)
                      /\ (lesson_published l = false ->
                          incl = true /\ authorized))
    /\ (forall k l, lessons db !! k = Some l -> lesson_instructorId l = i ->
          lesson_published l = true \/ (incl = true /\ authorized) ->
          exists dto, dto ∈ listed /\ dto_id (base dto) = lesson_id l
                      /\ dto_title (base dto) = lesson_title l)
    /\ (~ authorized ->
        LessonService.getLessonsByInstructor db i incl caller
        = LessonService.getLessonsByInstructor db i false caller).
Proof.
  intros Hfk authorized.
  set (can := incl && match caller with
                      | Some u => bool_decide (uid u = i)
                                  || bool_decide (role u = ADMIN)
                      | None => false
                      end).
  assert (Hcan : can = true <-> incl = true /\ authorized).
  { subst can authorized. rewrite andb_true_iff.
    destruct caller as [u |].
    - rewrite orb_true_iff, !bool_decide_eq_true. split.
      + intros [Hi H]. split; [exact Hi |]. exists u. auto.
      + intros [Hi (u' & [= <-] & H)]. auto.
    - split; [intros [_ H]; discriminate H |].
      intros [_ (u & H & _)]. discriminate H. }
  set (f := fun rawLesson : LessonWithRelations =>
              LessonService.transformToLessonWithStats rawLesson
                (LessonRepository.getLessonStats db
                   (lesson_id (row rawLesson)))).
  assert (Hf : forall raw,
            raw ∈ LessonRepository.findByInstructorId db i can ->
            exists k l dto,
              lessons db !! k = Some l /\ lesson_instructorId l = i
              /\ (can = true \/ lesson_published l = true)
              /\ row raw = l /\ f raw = Ok dto
              /\ dto_id (base dto) = lesson_id l
              /\ dto_title (base dto) = lesson_title l
              /\ dto_published (base dto) = lesson_published l
              /\ stats dto
                 = LessonRepository.getLessonStats db (lesson_id l)).
  { intros raw H. apply findByInstructorId_rows in H
      as (k & l & Hl & Hi & Hv & ->).
    destruct (Hfk k l Hl) as [ins Hins].
    exists k, l. subst f. simpl.
    unfold LessonService.transformToLessonWithStats,
      LessonService.transformToLessonWithInstructor. simpl.
    rewrite Hins. simpl. eexists. repeat split; auto. }
  destruct (mapM_Result_Ok f (LessonRepository.findByInstructorId db i can))
    as (listed & Hm & HF).
  { intros raw H. destruct (Hf raw H) as (k & l & dto & H'). exists dto.
    tauto. }
  exists listed. split; [exact Hm |]. split; [| split].
  - intros dto Hd.
    apply list_elem_of_lookup in Hd as [n Hn].
    destruct (Forall2_lookup_r _ _ _ _ _ HF Hn) as (raw & Hraw & Hfr).
    assert (Hin : raw ∈ LessonRepository.findByInstructorId db i can)
      by (apply list_elem_of_lookup; eauto).
    destruct (Hf raw Hin)
      as (k & l & dto' & Hl & Hi & Hv & _ & Hfr' & H1 & _ & H2 & H3).
    rewrite Hfr in Hfr'. injection Hfr' as <-.
    exists k, l. repeat split; try assumption;
      destruct Hv as [Hv | Hv]; first [ apply Hcan, Hv | congruence ].
  - intros k l Hl Hi Hv.
    assert (Hin : LessonRepository.withListedRelations db (k, l)
                  ∈ LessonRepository.findByInstructorId db i can).
    { apply findByInstructorId_rows. exists k, l.
      repeat split; try assumption.
      destruct Hv as [Hv | Hv]; [right; exact Hv | left; apply Hcan, Hv]. }
    apply list_elem_of_lookup in Hin as [n Hn].
    destruct (Forall2_lookup_l _ _ _ _ _ HF Hn) as (dto & Hdto & Hfr).
    assert (Hin : LessonRepository.withListedRelations db (k, l)
                  ∈ LessonRepository.findByInstructorId db i can)
      by (apply list_elem_of_lookup; eauto).
    destruct (Hf _ Hin)
      as (k' & l' & dto' & _ & _ & _ & Hrow & Hfr' & H1 & H2 & _).
    simpl in Hrow. subst l'. rewrite Hfr in Hfr'. injection Hfr' as <-.
    exists dto. split; [apply list_elem_of_lookup; eauto | auto].
  - intros Hno. unfold LessonService.getLessonsByInstructor.
    fold can.
    assert (E : can = false).
    { apply not_true_is_false. intros H. apply Hcan in H. tauto. }
    rewrite E.
    assert (E' : false && match caller with
                          | Some u => bool_decide (uid u = i)
                                      || bool_decide (role u = ADMIN)
                          | None => false
                          end = false) by reflexivity.
    rewrite E'. reflexivity.
Qed.

(** X13. [getLessonsByInstructor], on a database whose lessons all have
    their instructor: it returns one entry per lesson that
    [findByInstructorId] lists, in the same order, each with the statistics
    of its lesson. An unpublished lesson is among them only when unpublished
    lessons were asked for and the caller is that instructor or an
    administrator; for any other caller, the anonymous one included, asking
    changes nothing. *)
Theorem getLessonsByInstructor_visibility (db : Db) (i : string)
    (incl : bool) (caller : option UserSession) :
  instructorsExist db ->
  let authorized :=
    exists u, caller = Some u /\ (uid u = i \/ role u = ADMIN) in
  exists listed,
    LessonService.getLessonsByInstructor db i incl caller = Ok listed
    /\ (forall dto, dto ∈ listed ->
          exists k l, lessons db !! k = Some l
                      /\ lesson_instructorId l = i
                      /\ dto_id (base dto) = lesson_id l
                      /\ dto_published (base dto) = lesson_published l
                      /\ stats dto
                         = LessonRepository.getLessonStats db (lesson_id l)
                      /\ (lesson_published l = false ->
                          incl = true /\ authorized))
    /\ (forall k l, lessons db !! k = Some l -> lesson_instructorId l = i ->
          lesson_published l = true \/ (incl = true /\ authorized) ->
          exists dto, dto ∈ listed /\ dto_id (base dto) = lesson_id l
                      /\ dto_title (base dto) = lesson_title l)
    /\ (~ authorized ->
        LessonService.getLessonsByInstructor db i incl caller
        = LessonService.getLessonsByInstructor db i false caller).
Proof. apply getLessonsByInstructor_listed. Qed.

Lemma sample_instructorsExist : instructorsExist Sample.db.
Proof.
  intros k l Hl. unfold Sample.db in *. simpl in *.
  destruct (decide (k = "L1")) as [-> | H1];
    [injection Hl as <-; eexists; reflexivity |].
  destruct (decide (k = "L2")) as [-> | H2];
    [injection Hl as <-; eexists; reflexivity |].
  destruct (decide (k = "L3")) as [-> | H3];
    [injection Hl as <-; eexists; reflexivity |].
  rewrite !lookup_insert_ne in Hl by congruence.
  rewrite lookup_empty in Hl. discriminate Hl.
Defined.

Lemma getLessonsByInstructor_visibility_witness :
  exists listed,
    LessonService.getLessonsByInstructor Sample.db "U1" true
      (Some Sample.instructorU3) = Ok listed
    /\ LessonService.getLessonsByInstructor Sample.db "U1" true
         (Some Sample.instructorU3)
       = LessonService.getLessonsByInstructor Sample.db "U1" false
           (Some Sample.instructorU3).
Proof.
  destruct (getLessonsByInstructor_visibility Sample.db "U1" true
              (Some Sample.instructorU3) sample_instructorsExist)
    as (listed & H & _ & _ & Hsame).
  exists listed. split; [exact H |]. apply Hsame.
  intros (u & [= <-] & [Hu | Hu]); discriminate.
Defined.

(** ** Statistics and the caller's context *)

Lemma foldl_sum_bounds {A : Type} (f : A -> Z) (lo hi : Z) (l : list A) :
  (forall x, x ∈ l -> lo <= f x <= hi) ->
  forall acc,
    acc + lo * Z.of_nat (length l)
    <= foldl (fun sum x => sum + f x) acc l
    <= acc + hi * Z.of_nat (length l).
Proof.
  induction l as [| a l IH]; intros H acc; simpl.
  - lia.
  - assert (Ha : lo <= f a <= hi) by (apply H; left).
    specialize (IH (fun x Hx => H x (list_elem_of_further _ _ _ Hx))
                   (acc + f a)).
    lia.
Qed.

Lemma filter_all_length {A : Type} (P : A -> Prop)
    `{!forall x, Decision (P x)} (l : list A) :
  length (filter P l) = length l <-> forall x, x ∈ l -> P x.
Proof.
  induction l as [| a l IH].
  - split; [intros _ x Hx; inversion Hx | reflexivity].
  - rewrite filter_cons. destruct (decide (P a)) as [Ha | Ha]; simpl.
    + split.
      * intros E x Hx. apply elem_of_cons in Hx as [-> | Hx]; [exact Ha |].
        apply IH; [lia | exact Hx].
      * intros Hall. f_equal. apply IH. intros x Hx. apply Hall. right.
        exact Hx.
    + pose proof (length_filter P l). split; [lia |].
      intros Hall. exfalso. apply Ha, Hall. left.
Qed.

(** X14. The statistics of [getLessonStats]: the purchase count never
    exceeds the number of purchases of the lesson and equals it exactly
    when all are completed; the review count is the number of its reviews;
    the average is absent exactly when there is no review and otherwise,
    ratings being from 1 to 5, lies between 1 and 5; the revenue of amounts
    that are not negative is not negative, and is 0 without completed
    purchase. *)
Theorem getLessonStats_bounds (db : Db) (lessonId : string) :
  let s := LessonRepository.getLessonStats db lessonId in
  (stats_purchaseCount s
   <= length (LessonRepository.purchasesOf db lessonId))%nat
  /\ (stats_purchaseCount s
      = length (LessonRepository.purchasesOf db lessonId)
      <-> forall p, p ∈ purchases db -> purchase_lessonId p = lessonId ->
                    purchase_status p = COMPLETED)
  /\ stats_reviewCount s = length (LessonRepository.reviewsOf db lessonId)
  /\ (stats_averageRating s = None
      <-> forall r, r ∈ reviews db -> review_lessonId r <> lessonId)
  /\ ((forall r, r ∈ reviews db -> 1 <= review_rating r <= 5) ->
      forall total n, stats_averageRating s = Some (total, n) ->
        n = stats_reviewCount s /\ (0 < n)%nat
        /\ 1 * Z.of_nat n <= total <= 5 * Z.of_nat n)
  /\ ((forall p, p ∈ purchases db -> 0 <= purchase_amount p) ->
      0 <= stats_totalRevenue s)
  /\ (stats_purchaseCount s = 0%nat -> stats_totalRevenue s = 0).
Proof.
  intros s. subst s. unfold LessonRepository.getLessonStats. simpl.
  split; [apply length_filter |].
  split.
  { rewrite filter_all_length. unfold LessonRepository.purchasesOf. split.
    - intros H p Hp Hid. apply H, list_elem_of_filter. auto.
    - intros H p Hp. apply list_elem_of_filter in Hp as [Hid Hp]. auto. }
  split; [reflexivity |].
  split.
  { destruct (LessonRepository.reviewsOf db lessonId) as [| r rs] eqn:E;
      simpl.
    - split; [| reflexivity]. intros _ r Hr Hid.
      assert (H : r ∈ LessonRepository.reviewsOf db lessonId)
        by (apply list_elem_of_filter; auto).
      rewrite E in H. inversion H.
    - split; [discriminate |]. intros H. exfalso.
      assert (Hr : r ∈ LessonRepository.reviewsOf db lessonId)
        by (rewrite E; left).
      apply list_elem_of_filter in Hr as [Hid Hr]. exact (H r Hr Hid). }
  split.
  { intros Hrat total n.
    destruct (Nat.ltb_spec 0 (length (LessonRepository.reviewsOf db
                                        lessonId))) as [Hpos | Hz];
      [| discriminate].
    intros [= <- <-]. split; [reflexivity |]. split; [exact Hpos |].
    pose proof (foldl_sum_bounds review_rating 1 5
                  (LessonRepository.reviewsOf db lessonId)) as Hb.
    specialize (Hb (fun r Hr => Hrat r (proj2 (proj1
                  (list_elem_of_filter _ _ _) Hr))) 0).
    lia. }
  split.
  { intros Hamt.
    assert (Hlo : forall l acc, (forall p, p ∈ l -> 0 <= purchase_amount p) ->
              0 <= acc ->
              0 <= foldl (fun sum p => sum + purchase_amount p) acc l).
    { induction l as [| a l IH]; intros acc Hl Hacc; simpl; [exact Hacc |].
      apply IH; [intros p Hp; apply Hl; right; exact Hp |].
      specialize (Hl a (list_elem_of_here _ _)). lia. }
    apply Hlo; [| lia].
    intros p Hp. apply list_elem_of_filter in Hp as [_ Hp].
    apply list_elem_of_filter in Hp as [_ Hp]. auto. }
  intros Hz.
  destruct (filter (fun p => purchase_status p = COMPLETED)
              (LessonRepository.purchasesOf db lessonId));
    [reflexivity | discriminate Hz].
Qed.

Lemma getLessonStats_bounds_witness :
  1%nat = stats_reviewCount (LessonRepository.getLessonStats Sample.db "L2")
  /\ (0 < 1)%nat /\ 1 * Z.of_nat 1 <= 5 <= 5 * Z.of_nat 1.
Proof.
  apply (proj1 (proj2 (proj2 (proj2 (proj2
           (getLessonStats_bounds Sample.db "L2")))))).
  - intros r Hr. unfold Sample.db in Hr. simpl in Hr.
    apply elem_of_cons in Hr as [-> | Hr]; [simpl; lia | inversion Hr].
  - reflexivity.
Defined.

Lemma head_filter_Some {A : Type} (P : A -> Prop)
    `{!forall x, Decision (P x)} (l : list A) (x : A) :
  head (filter P l) = Some x -> P x /\ x ∈ l.
Proof.
  intros Hh. apply (proj1 (list_elem_of_filter P l x)).
  destruct (filter P l) as [| a r]; [discriminate Hh |].
  injection Hh as <-. left.
Qed.

Lemma head_filter_None {A : Type} (P : A -> Prop)
    `{!forall x, Decision (P x)} (l : list A) :
  head (filter P l) = None -> forall x, x ∈ l -> ~ P x.
Proof.
  intros Hh x Hx HP.
  assert (Hin : x ∈ filter P l) by (apply list_elem_of_filter; auto).
  destruct (filter P l); [inversion Hin | discriminate Hh].
Qed.

(** What a returned lesson carries: the statistics of the lesson, and the
    context of the caller when there is one. *)
Lemma getLessonById_Ok_inv (db : Db) (lessonId : string)
    (caller : option UserSession) (dto : LessonWithUserContext) :
  LessonService.getLessonById db lessonId caller = Ok dto ->
  userContext dto = LessonService.buildUserContext db lessonId <$> caller
  /\ stats (lesson dto) = LessonRepository.getLessonStats db lessonId.
Proof.
  unfold LessonService.getLessonById, LessonRepository.findById.
  destruct (lessons db !! lessonId) as [l |]; simpl; [| discriminate].
  destruct (if negb (lesson_published l)
            then if negb (match caller with
                          | Some u => bool_decide (lesson_instructorId l
                                                   = uid u)
                                      || bool_decide (role u = ADMIN)
                          | None => false
                          end)
                 then Throw (LessonNotPublishedError lessonId)
                 else Ok tt
            else Ok tt) as [[] | e]; simpl; [| discriminate].
  unfold LessonService.transformToLessonWithStats,
    LessonService.transformToLessonWithInstructor. simpl.
  destruct (users db !! lesson_instructorId l); simpl; [| discriminate].
  destruct caller; intros [= <-]; split; reflexivity.
Qed.

(** X15. The caller's context in what [getLessonById] returns. An anonymous
    caller gets none. A caller who is present gets [hasAccess] equal to
    [isPurchased], and that is [true] only when the caller has a completed
    purchase of the lesson: without one it is [false], for the owner and an
    administrator too; the caller's purchase being unique, it is [true]
    exactly when that purchase is completed. The review shown is one the
    caller wrote for the lesson. *)
Theorem getLessonById_userContext (db : Db) (lessonId : string)
    (caller : option UserSession) (dto : LessonWithUserContext) :
  LessonService.getLessonById db lessonId caller = Ok dto ->
  (caller = None -> userContext dto = None)
  /\ (forall u, caller = Some u ->
      exists c,
        userContext dto = Some c
        /\ hasAccess c = isPurchased c
        /\ (isPurchased c = true ->
            exists p, p ∈ purchases db
                      /\ purchase_userId p = uid u
                      /\ purchase_lessonId p = lessonId
                      /\ purchase_status p = COMPLETED)
        /\ ((forall p, p ∈ purchases db -> purchase_userId p = uid u ->
                       purchase_lessonId p = lessonId ->
                       purchase_status p <> COMPLETED) ->
            hasAccess c = false)
        /\ (onePurchasePerUser db ->
            forall p, p ∈ purchases db -> purchase_userId p = uid u ->
                      purchase_lessonId p = lessonId ->
                      (hasAccess c = true <-> purchase_status p = COMPLETED))
        /\ (forall rv, userReview c = Some rv ->
              exists r, r ∈ reviews db
                        /\ review_userId r = uid u
                        /\ review_lessonId r = lessonId
                        /\ userReview_id rv = review_id r
                        /\ userReview_rating rv = review_rating r
                        /\ userReview_comment rv = review_comment r)).
Proof.
  intros Hok. apply getLessonById_Ok_inv in Hok as [Hctx _].
  split; [intros ->; exact Hctx |].
  intros u ->. simpl in Hctx.
  exists (LessonService.buildUserContext db lessonId u).
  split; [exact Hctx |].
  unfold LessonService.buildUserContext. simpl.
  split; [reflexivity |].
  destruct (head (filter (fun p => purchase_userId p = uid u
                                   /\ purchase_lessonId p = lessonId)
                         (purchases db))) as [q |] eqn:Eq.
  - apply head_filter_Some in Eq as [[Hqu Hql] Hq].
    split; [| split; [| split]].
    + intros H. apply bool_decide_eq_true in H. exists q. auto.
    + intros Hno. apply bool_decide_eq_false. apply Hno; assumption.
    + intros Huniq p Hp Hpu Hpl.
      assert (p = q) as -> by (apply Huniq; congruence).
      apply bool_decide_eq_true.
    + intros rv Hrv.
      destruct (head (filter (fun r => review_userId r = uid u
                                       /\ review_lessonId r = lessonId)
                             (reviews db))) as [r |] eqn:Er;
        [| discriminate Hrv].
      injection Hrv as <-. apply head_filter_Some in Er as [[Hru Hrl] Hr].
      exists r. simpl. auto 10.
  - split; [discriminate | split; [reflexivity | split]].
    + intros _ p Hp Hpu Hpl. exfalso.
      exact (head_filter_None _ _ Eq p Hp (conj Hpu Hpl)).
    + intros rv Hrv.
      destruct (head (filter (fun r => review_userId r = uid u
                                       /\ review_lessonId r = lessonId)
                             (reviews db))) as [r |] eqn:Er;
        [| discriminate Hrv].
      injection Hrv as <-. apply head_filter_Some in Er as [[Hru Hrl] Hr].
      exists r. simpl. auto 10.
Qed.

Lemma getLessonById_userContext_witness :
  exists dto c,
    LessonService.getLessonById Sample.db "L2" (Some Sample.instructorU1)
    = Ok dto
    /\ userContext dto = Some c
    /\ hasAccess c = false.
Proof.
  destruct (LessonService.getLessonById Sample.db "L2"
              (Some Sample.instructorU1)) as [dto | e] eqn:E;
    [| discriminate E].
  destruct (proj2 (getLessonById_userContext Sample.db "L2"
                     (Some Sample.instructorU1) dto E)
              Sample.instructorU1 eq_refl)
    as (c & Hc & _ & _ & Hno & _).
  exists dto, c. split; [reflexivity |]. split; [exact Hc |].
  apply Hno. intros p Hp Hu. unfold Sample.db in Hp. simpl in Hp.
  apply elem_of_cons in Hp as [-> | Hp]; [discriminate Hu |].
  apply elem_of_cons in Hp as [-> | Hp]; [discriminate Hu |].
  apply elem_of_cons in Hp as [-> | Hp]; [discriminate Hu |].
  inversion Hp.
Defined.

(** X16. The purchase count of a lesson summary is the number of the
    purchases loaded with the lesson, of whatever status, and 0 when none
    were loaded. For a lesson loaded with all its purchases it is never
    below the count [getLessonStats] gives, and equals it exactly when every
    purchase of the lesson is completed; loaded with all its reviews, its
    average is the one [getLessonStats] gives. *)
Theorem summary_counts_every_purchase (db : Db) (lessonId : string)
    (raw : LessonWithRelations) (summary : LessonSummary) :
  LessonService.transformToLessonSummary raw = Ok summary ->
  (rel_purchases raw = None -> summary_purchaseCount summary = 0%nat)
  /\ (forall ps, rel_purchases raw = Some ps ->
        summary_purchaseCount summary = length ps)
  /\ (rel_purchases raw = Some (LessonRepository.purchasesOf db lessonId) ->
      (stats_purchaseCount (LessonRepository.getLessonStats db lessonId)
       <= summary_purchaseCount summary)%nat
      /\ (stats_purchaseCount (LessonRepository.getLessonStats db lessonId)
          = summary_purchaseCount summary
          <-> forall p, p ∈ purchases db -> purchase_lessonId p = lessonId ->
                        purchase_status p = COMPLETED))
  /\ (rel_reviews raw = Some (LessonRepository.reviewsOf db lessonId) ->
      summary_averageRating summary
      = stats_averageRating (LessonRepository.getLessonStats db lessonId)).
Proof.
  unfold LessonService.transformToLessonSummary.
  destruct (rel_instructor raw) as [i |]; [| discriminate].
  intros [= <-]. simpl.
  split; [intros ->; reflexivity |].
  split; [intros ps ->; reflexivity |].
  split.
  - intros ->. simpl. split; [apply length_filter |].
    rewrite filter_all_length. unfold LessonRepository.purchasesOf. split.
    + intros H p Hp Hid. apply H, list_elem_of_filter. auto.
    + intros H p Hp. apply list_elem_of_filter in Hp as [Hid Hp]. auto.
  - intros ->. reflexivity.
Qed.

Lemma summary_counts_every_purchase_witness :
  exists summary,
    LessonService.transformToLessonSummary
      (LessonRepository.withListedRelations Sample.db ("L3", Sample.L3))
    = Ok summary
    /\ summary_purchaseCount summary = 2%nat.
Proof.
  destruct (LessonService.transformToLessonSummary
              (LessonRepository.withListedRelations Sample.db
                 ("L3", Sample.L3))) as [summary | e] eqn:E;
    [| discriminate E].
  exists summary. split; [reflexivity |].
  apply (proj1 (proj2 (summary_counts_every_purchase Sample.db "L3" _
                         summary E))
           [Sample.abandoned; Sample.declined]).
  reflexivity.
Defined.

(** ** The router's validation against the service's *)

Lemma trimStart_length (l : list ascii) :
  (length (trimStart l) <= length l)%nat.
Proof.
  induction l as [| c r IH]; simpl; [lia |].
  destruct (isWhiteSpace c); simpl; lia.
Qed.

Lemma trimStart_head (l : list ascii) (c : ascii) (r : list ascii) :
  trimStart l = c :: r -> isWhiteSpace c = false.
Proof.
  induction l as [| a l IH]; simpl; [discriminate |].
  destruct (isWhiteSpace a) eqn:E; [exact IH |].
  intros [= <- _]. exact E.
Qed.

Lemma trimStart_nil (l : list ascii) :
  trimStart l = [] <-> Forall (fun c => isWhiteSpace c = true) l.
Proof.
  induction l as [| a l IH]; simpl.
  - split; [constructor | reflexivity].
  - destruct (isWhiteSpace a) eqn:E.
    + rewrite IH. split; [constructor; assumption |].
      intros H. inversion H; assumption.
    + split; [discriminate |]. intros H. inversion H; congruence.
Qed.

(** [trimStart] keeps a suffix: every character it keeps was there. *)
Lemma trimStart_elem_of (l : list ascii) (c : ascii) :
  c ∈ trimStart l -> c ∈ l.
Proof.
  induction l as [| a l IH]; simpl; [auto |].
  destruct (isWhiteSpace a); [| auto].
  intros H. right. apply IH, H.
Qed.

Lemma string_length_list (s : string) :
  String.length s = length (list_ascii_of_string s).
Proof. induction s as [| c s IH]; simpl; [reflexivity | f_equal; exact IH]. Qed.

Lemma trim_chars (s : string) :
  list_ascii_of_string (trim s)
  = rev (trimStart (rev (trimStart (list_ascii_of_string s)))).
Proof. unfold trim. apply list_ascii_of_string_of_list_ascii. Qed.

Lemma trim_length (s : string) :
  (String.length (trim s) <= String.length s)%nat.
Proof.
  rewrite !string_length_list, trim_chars, length_rev.
  etransitivity; [apply trimStart_length |].
  rewrite length_rev. apply trimStart_length.
Qed.

Lemma trim_empty_iff (s : string) :
  trim s = "" <-> trimStart (rev (trimStart (list_ascii_of_string s))) = [].
Proof.
  split.
  - intros H. apply (f_equal list_ascii_of_string) in H.
    rewrite trim_chars in H. simpl in H.
    apply (f_equal (@rev ascii)) in H. rewrite rev_involutive in H. exact H.
  - intros H. unfold trim. rewrite H. reflexivity.
Qed.

Lemma trimStart_keeps_last (p : list ascii) (c : ascii) :
  isWhiteSpace c = false -> c ∈ trimStart (p ++ [c]).
Proof.
  intros Hc. induction p as [| a p IH]; simpl.
  - rewrite Hc. left.
  - destruct (isWhiteSpace a); [exact IH |].
    right. apply elem_of_app. right. left.
Qed.

(** Trimming what is already trimmed cannot empty it. *)
Lemma trim_trim_empty (s : string) : trim (trim s) = "" -> trim s = "".
Proof.
  intros H. apply trim_empty_iff in H. rewrite trim_chars in H.
  apply trim_empty_iff.
  destruct (trimStart (rev (trimStart (list_ascii_of_string s))))
    as [| c r] eqn:E; [reflexivity |].
  exfalso. pose proof (trimStart_head _ _ _ E) as Hc.
  apply trimStart_nil in H. rewrite Forall_forall in H.
  assert (Hin : c ∈ trimStart (rev (c :: r))).
  { simpl. apply trimStart_keeps_last. exact Hc. }
  apply list_elem_of_In, in_rev, list_elem_of_In in Hin.
  specialize (H c Hin). congruence.
Qed.

(** What a body that passed [validateCreateLessonRequest] satisfied, and
    the body the handler then sees. *)
Lemma validateCreateLessonRequest_Ok_inv (body body' : CreateLessonApiInput) :
  LessonRouter.validateCreateLessonRequest body = Ok body' ->
  (1 <= String.length (body_title body) <= 200)%nat
  /\ (forall d, body_description body = Some d ->
                (String.length d <= 2000)%nat)
  /\ 100 <= body_price body <= 99999
  /\ (forall c, body_category body = Some c -> (String.length c <= 50)%nat)
  /\ body' = {| body_title := trim (body_title body);
                body_description :=
                  LessonRouter.trimOrUndefined (body_description body);
                body_price := body_price body;
                body_category :=
                  LessonRouter.trimOrUndefined (body_category body) |}.
Proof.
  unfold LessonRouter.validateCreateLessonRequest, jsLength.
  destruct (Z.ltb_spec (Z.of_nat (String.length (body_title body))) 1);
    [discriminate |].
  destruct (Z.gtb_spec (Z.of_nat (String.length (body_title body))) 200);
    [discriminate |].
  destruct (body_description body) as [d |] eqn:Ed.
  - destruct (Z.gtb_spec (Z.of_nat (String.length d)) 2000);
      [discriminate |].
    destruct (Z.ltb_spec (body_price body) 100); [discriminate |].
    destruct (Z.gtb_spec (body_price body) 99999); [discriminate |].
    destruct (body_category body) as [c |] eqn:Ec.
    + destruct (Z.gtb_spec (Z.of_nat (String.length c)) 50);
        [discriminate |].
      intros [= <-]. repeat split; try lia.
      * intros d' [= <-]. lia.
      * intros c' [= <-]. lia.
    + intros [= <-]. repeat split; try lia; try discriminate.
      intros d' [= <-]. lia.
  - destruct (Z.ltb_spec (body_price body) 100); [discriminate |].
    destruct (Z.gtb_spec (body_price body) 99999); [discriminate |].
    destruct (body_category body) as [c |] eqn:Ec.
    + destruct (Z.gtb_spec (Z.of_nat (String.length c)) 50);
        [discriminate |].
      intros [= <-]. repeat split; try lia; try discriminate.
      intros c' [= <-]. lia.
    + intros [= <-]. repeat split; try lia; discriminate.
Qed.

(** Every error [createLesson] can throw. *)
Lemma createLesson_throws (db : Db) (newId : string) (now : Z)
    (input : CreateLessonInput) (u : UserSession) (e : Thrown) :
  fst (LessonService.createLesson db newId now input u) = Throw e ->
  LessonService.validateLessonInput input = Throw e
  \/ (e = LessonPermissionDeniedError "create" (uid u)
      /\ role u <> INSTRUCTOR)
  \/ e = PrismaClientError.
Proof.
  unfold LessonService.createLesson.
  destruct (LessonService.validateLessonInput input) as [[] | e0].
  2:{ simpl. intros [= <-]. left. reflexivity. }
  destruct (decide (role u = INSTRUCTOR)) as [Hr | Hr].
  2:{ rewrite (bool_decide_eq_false_2 _ Hr). simpl. intros [= <-].
      right; left. split; [reflexivity | exact Hr]. }
  rewrite (bool_decide_eq_true_2 _ Hr). simpl.
  unfold LessonRepository.createLesson. simpl.
  destruct (lessons db !! newId).
  { simpl. intros [= <-]. right; right. reflexivity. }
  destruct (users db !! uid u).
  - simpl. discriminate.
  - simpl. intros [= <-]. right; right. reflexivity.
Qed.

(** X17. What the service's validation still does behind the router's.
    For a body that [validateCreateLessonRequest] let through,
    [validateLessonInput] passes unless the title is white space only: the
    router measures the title before trimming it, the service after, so such
    a title reaches the service empty and gets "Title is required".
    [POST /api/lessons] therefore never answers with
    [InvalidLessonPriceError]: a price out of range is refused by the router
    with the generic code. *)
Theorem router_validation_covers_service :
  (forall body body' i,
     LessonRouter.validateCreateLessonRequest body = Ok body' ->
     let input :=
       mkCreateLessonInput (body_title body') (body_description body')
         (body_price body') (body_category body') i in
     (trim (body_title body) <> "" ->
      LessonService.validateLessonInput input = Ok tt)
     /\ (trim (body_title body) = "" ->
         LessonService.validateLessonInput input
         = Throw (LessonValidationError "title" "Title is required")))
  /\ (forall verifyIdToken db newId now token body p,
        fst (LessonRouter.postLesson verifyIdToken db newId now token body)
        <> Throw (InvalidLessonPriceError p))
  /\ (forall body,
        (1 <= String.length (body_title body) <= 200)%nat ->
        (forall d, body_description body = Some d ->
                   (String.length d <= 2000)%nat) ->
        body_price body < 100 \/ 99999 < body_price body ->
        exists m,
          LessonRouter.validateCreateLessonRequest body
          = Throw (MiddlewareError
                     (mkAppError 400 m (Some "LESSON_VALIDATION_ERROR")))).
Proof.
  assert (Hcover : forall body body' i,
    LessonRouter.validateCreateLessonRequest body = Ok body' ->
    (trim (body_title body) <> "" ->
     LessonService.validateLessonInput
       (mkCreateLessonInput (body_title body') (body_description body')
          (body_price body') (body_category body') i) = Ok tt)
    /\ (trim (body_title body) = "" ->
        LessonService.validateLessonInput
          (mkCreateLessonInput (body_title body') (body_description body')
             (body_price body') (body_category body') i)
        = Throw (LessonValidationError "title" "Title is required"))).
  { intros body body' i Hok.
    apply validateCreateLessonRequest_Ok_inv in Hok
      as ([_ Hlen] & Hd & Hp & _ & ->). simpl. split.
    - intros Ht. rewrite validateLessonInput_reaches_price; simpl.
      + apply validatePrice_in_range. exact Hp.
      + intros H. apply Ht, trim_trim_empty, H.
      + pose proof (trim_length (body_title body)). lia.
      + intros d. destruct (body_description body) as [d0 |]; simpl;
          [| discriminate].
        destruct (String.eqb (trim d0) ""); [discriminate |].
        intros [= <-]. pose proof (trim_length d0).
        specialize (Hd d0 eq_refl). lia.
    - intros Ht. unfold LessonService.validateLessonInput. simpl.
      rewrite Ht. reflexivity. }
  split; [exact Hcover |]. split.
  - intros verifyIdToken db newId now token body p.
    unfold LessonRouter.postLesson.
    destruct (requireAuth verifyIdToken token) as [user | e] eqn:Ea.
    2:{ simpl. unfold requireAuth in Ea.
        destruct (negb (truthyString token)); [congruence |].
        destruct (verifyIdToken (default "" token)); congruence. }
    destruct (requireRole ["INSTRUCTOR"] (Some user)) as [[] | e] eqn:Er.
    2:{ simpl. unfold requireRole in Er.
        destruct (negb (bool_decide (Role_literal (role user)
                                     ∈ ["INSTRUCTOR"]))); congruence. }
    destruct (LessonRouter.validateCreateLessonRequest body)
      as [body' | e] eqn:Ev.
    2:{ simpl. intros [= ->].
        unfold LessonRouter.validateCreateLessonRequest in Ev.
        repeat (match type of Ev with
                | (if ?c then _ else _) = _ => destruct c
                end; [unfold LessonRouter.validationError in Ev;
                      discriminate Ev |]).
        discriminate Ev. }
    intros H. apply createLesson_throws in H as [H | [[H _] | H]];
      try discriminate H.
    destruct (decide (trim (body_title body) = "")) as [Ht | Ht].
    + rewrite (proj2 (Hcover body body' (uid user) Ev) Ht) in H.
      discriminate H.
    + rewrite (proj1 (Hcover body body' (uid user) Ev) Ht) in H.
      discriminate H.
  - intros body [Hlo Hhi] Hd Hp.
    unfold LessonRouter.validateCreateLessonRequest, jsLength.
    destruct (Z.ltb_spec (Z.of_nat (String.length (body_title body))) 1);
      [lia |].
    destruct (Z.gtb_spec (Z.of_nat (String.length (body_title body))) 200);
      [lia |].
    assert (Hdesc : match body_description body with
                    | Some d => Z.of_nat (String.length d) >? 2000
                    | None => false
                    end = false).
    { destruct (body_description body) as [d |]; [| reflexivity].
      specialize (Hd d eq_refl).
      destruct (Z.gtb_spec (Z.of_nat (String.length d)) 2000); [lia |].
      reflexivity. }
    rewrite Hdesc.
    destruct (Z.ltb_spec (body_price body) 100);
      [eexists; reflexivity |].
    destruct (Z.gtb_spec (body_price body) 99999);
      [eexists; reflexivity | lia].
Qed.

Lemma router_validation_covers_service_witness :
  LessonService.validateLessonInput
    (mkCreateLessonInput "" None 2999 None "U1")
  = Throw (LessonValidationError "title" "Title is required").
Proof.
  apply (proj2 (proj1 router_validation_covers_service
                  (mkCreateLessonApiInput "   " None 2999 None)
                  (mkCreateLessonApiInput "" None 2999 None) "U1"
                  eq_refl)).
  reflexivity.
Defined.

(** ** Sequences of service calls *)

(** The four things a call of the service can do to the database: nothing,
    insert a lesson under a free key, replace a lesson by its updated row,
    or remove a lesson that has no purchase. *)
Lemma afterCall_cases (db : Db) (c : ServiceCall) :
  afterCall db c = db
  \/ (exists newId l,
        lessons db !! newId = None /\ lesson_id l = newId
        /\ is_Some (users db !! lesson_instructorId l)
        /\ afterCall db c
           = {| lessons := <[newId := l]> (lessons db);
                users := users db; purchases := purchases db;
                reviews := reviews db; tags := tags db |})
  \/ (exists lessonId l data now,
        lessons db !! lessonId = Some l
        /\ afterCall db c
           = {| lessons :=
                  <[lessonId := LessonRepository.updatedRow l data now]>
                    (lessons db);
                users := users db; purchases := purchases db;
                reviews := reviews db; tags := tags db |})
  \/ (exists lessonId l,
        lessons db !! lessonId = Some l
        /\ LessonRepository.purchasesOf db lessonId = []
        /\ afterCall db c = LessonRepository.withoutLesson db lessonId).
Proof.
  destruct c as [newId now input u | now lessonId input u | lessonId u];
    simpl.
  - unfold LessonService.createLesson.
    destruct (LessonService.validateLessonInput input); [| left; reflexivity].
    destruct (negb (bool_decide (role u = INSTRUCTOR))); [left; reflexivity |].
    unfold LessonRepository.createLesson. simpl.
    destruct (lessons db !! newId) eqn:El; [left; reflexivity |].
    destruct (users db !! uid u) eqn:Eu; [| left; reflexivity].
    right; left. simpl.
    exists newId,
      {| lesson_id := newId; lesson_title := input_title input;
         lesson_description := input_description input;
         lesson_price := input_price input;
         lesson_category := input_category input;
         lesson_thumbnailUrl := input_thumbnailUrl input;
         lesson_published := default false (input_published input);
         lesson_instructorId := uid u;
         lesson_createdAt := now; lesson_updatedAt := now |}.
    split; [exact El |]. split; [reflexivity |].
    split; [simpl; rewrite Eu; eauto | reflexivity].
  - destruct (lessons db !! lessonId) as [l |] eqn:Hl.
    + rewrite (updateLesson_found db now lessonId l input u Hl).
      destruct (negb (bool_decide (lesson_instructorId l = uid u))
                && negb (bool_decide (role u = ADMIN)));
        [left; reflexivity |].
      destruct (match upd_price input with
                | Some price => LessonService.validatePrice price
                | None => Ok tt
                end); [| left; reflexivity].
      right; right; left. exists lessonId, l, input, now.
      split; [exact Hl | reflexivity].
    + left. unfold LessonService.updateLesson, LessonRepository.findById.
      rewrite Hl. reflexivity.
  - destruct (lessons db !! lessonId) as [l |] eqn:Hl.
    + rewrite (deleteLesson_found db lessonId l u Hl).
      destruct (negb (bool_decide (lesson_instructorId l = uid u))
                && negb (bool_decide (role u = ADMIN)));
        [left; reflexivity |].
      destruct (LessonRepository.purchasesOf db lessonId) eqn:Ep;
        [| left; reflexivity].
      simpl.
      destruct (LessonRepository.hasDependencies db lessonId);
        [left; reflexivity |].
      right; right; right. exists lessonId, l. auto.
    + left. unfold LessonService.deleteLesson, LessonRepository.findById.
      rewrite Hl. reflexivity.
Qed.

(** X18. The lesson service writes to the lessons table only, and keeps it
    consistent: after any sequence of [createLesson], [updateLesson] and
    [deleteLesson] calls, whether they returned or threw, users, purchases,
    reviews and tags are as at the start, every lesson is still stored under
    its own id and still has its instructor. *)
Theorem service_calls_keep_integrity (db : Db) (cs : list ServiceCall) :
  keysAreIds db -> instructorsExist db ->
  keysAreIds (afterCalls db cs)
  /\ instructorsExist (afterCalls db cs)
  /\ users (afterCalls db cs) = users db
  /\ purchases (afterCalls db cs) = purchases db
  /\ reviews (afterCalls db cs) = reviews db
  /\ tags (afterCalls db cs) = tags db.
Proof.
  revert db. induction cs as [| c cs IH]; intros db Hk Hi.
  - repeat split; assumption.
  - assert (Hstep : keysAreIds (afterCall db c)
                    /\ instructorsExist (afterCall db c)
                    /\ users (afterCall db c) = users db
                    /\ purchases (afterCall db c) = purchases db
                    /\ reviews (afterCall db c) = reviews db
                    /\ tags (afterCall db c) = tags db).
    { destruct (afterCall_cases db c)
        as [-> | [(k & l & Hfree & Hid & Hu & ->)
               | [(k & l & data & now & Hl & ->)
                 | (k & l & Hl & _ & ->)]]].
      - repeat split; assumption.
      - repeat split; unfold keysAreIds, instructorsExist in *; simpl.
        + apply map_Forall_insert_2; assumption.
        + apply map_Forall_insert_2; assumption.
      - repeat split; unfold keysAreIds, instructorsExist in *; simpl.
        + apply map_Forall_insert_2; [| assumption]. simpl.
          exact (Hk k l Hl).
        + apply map_Forall_insert_2; [| assumption]. simpl.
          exact (Hi k l Hl).
      - repeat split; unfold keysAreIds, instructorsExist in *; simpl.
        + apply map_Forall_delete. assumption.
        + apply map_Forall_delete. assumption. }
    destruct Hstep as (Hk' & Hi' & Hu & Hp & Hr & Ht).
    destruct (IH (afterCall db c) Hk' Hi') as (H1 & H2 & H3 & H4 & H5 & H6).
    simpl. repeat split; try assumption; congruence.
Qed.

Lemma sample_keysAreIds : keysAreIds Sample.db.
Proof.
  intros k l Hl. unfold Sample.db in *. simpl in *.
  destruct (decide (k = "L1")) as [-> | H1];
    [injection Hl as <-; reflexivity |].
  destruct (decide (k = "L2")) as [-> | H2];
    [injection Hl as <-; reflexivity |].
  destruct (decide (k = "L3")) as [-> | H3];
    [injection Hl as <-; reflexivity |].
  rewrite !lookup_insert_ne in Hl by congruence.
  rewrite lookup_empty in Hl. discriminate Hl.
Defined.

Lemma service_calls_keep_integrity_witness :
  purchases
    (afterCalls Sample.db
       [CallCreate "L9" 40 (Sample.okInput 2999) Sample.instructorU1;
        CallDelete "L1" Sample.admin1;
        CallUpdate 50 "L2"
          (mkUpdateLessonInput None None (Some 999) None None None)
          Sample.instructorU1])
  = purchases Sample.db.
Proof.
  apply (service_calls_keep_integrity Sample.db _ sample_keysAreIds
           sample_instructorsExist).
Defined.

(** One call leaves a lesson that has a purchase in place, with its id,
    owner and creation time. *)
Lemma afterCall_keeps_purchased (db : Db) (c : ServiceCall)
    (lessonId : string) (l : Lesson) :
  lessons db !! lessonId = Some l ->
  LessonRepository.purchasesOf db lessonId <> [] ->
  purchases (afterCall db c) = purchases db
  /\ exists l', lessons (afterCall db c) !! lessonId = Some l'
                /\ lesson_id l' = lesson_id l
                /\ lesson_instructorId l' = lesson_instructorId l
                /\ lesson_createdAt l' = lesson_createdAt l.
Proof.
  intros Hl Hp.
  destruct (afterCall_cases db c)
    as [-> | [(k & x & Hfree & _ & _ & ->)
           | [(k & x & data & now & Hx & ->)
             | (k & x & Hx & Hnone & ->)]]]; simpl.
  - split; [reflexivity |]. exists l. auto.
  - split; [reflexivity |]. exists l. rewrite lookup_insert_ne by congruence.
    auto.
  - split; [reflexivity |].
    destruct (decide (k = lessonId)) as [-> | Hne].
    + rewrite lookup_insert_eq. eexists. split; [reflexivity |].
      assert (x = l) as -> by congruence. simpl. auto.
    + rewrite lookup_insert_ne by exact Hne. exists l. auto.
  - split; [reflexivity |].
    destruct (decide (k = lessonId)) as [-> | Hne]; [contradiction |].
    rewrite lookup_delete_ne by exact Hne. exists l. auto.
Qed.

(** X19. A lesson that has a purchase, of whatever status, outlives every
    sequence of calls of the lesson service, whoever makes them: it is
    still there afterwards, under the same id, with the same owner and the
    same creation time. *)
Theorem purchased_lesson_survives (db : Db) (cs : list ServiceCall)
    (lessonId : string) (l : Lesson) (p : Purchase) :
  lessons db !! lessonId = Some l ->
  p ∈ purchases db ->
  purchase_lessonId p = lessonId ->
  exists l', lessons (afterCalls db cs) !! lessonId = Some l'
             /\ lesson_id l' = lesson_id l
             /\ lesson_instructorId l' = lesson_instructorId l
             /\ lesson_createdAt l' = lesson_createdAt l.
Proof.
  revert db l. induction cs as [| c cs IH]; intros db l Hl Hp Hid.
  - exists l. auto.
  - assert (Hne : LessonRepository.purchasesOf db lessonId <> []).
    { intros E.
      assert (Hin : p ∈ LessonRepository.purchasesOf db lessonId)
        by (apply list_elem_of_filter; auto).
      rewrite E in Hin. inversion Hin. }
    destruct (afterCall_keeps_purchased db c lessonId l Hl Hne)
      as (Hsame & l1 & Hl1 & H1 & H2 & H3).
    destruct (IH (afterCall db c) l1 Hl1) as (l' & Hl' & H4 & H5 & H6);
      [rewrite Hsame; exact Hp | exact Hid |].
    exists l'. simpl. repeat split; [exact Hl' | congruence ..].
Qed.

Lemma purchased_lesson_survives_witness :
  exists l',
    lessons
      (afterCalls Sample.db
         [CallDelete "L3" Sample.admin1;
          CallUpdate 50 "L3"
            (mkUpdateLessonInput (Some "Clubs") None None None (Some false)
               None)
            Sample.instructorU1;
          CallDelete "L3" Sample.instructorU1]) !! "L3" = Some l'
    /\ lesson_id l' = "L3"
    /\ lesson_instructorId l' = "U1"
    /\ lesson_createdAt l' = 30.
Proof.
  apply (purchased_lesson_survives Sample.db _ "L3" Sample.L3
           Sample.abandoned).
  - reflexivity.
  - apply list_elem_of_further, list_elem_of_here.
  - reflexivity.
Defined.

(** ** Listing, searching and the route, composed *)

Lemma mapM_Result_inv {A B : Type} (f : A -> Result B) (l : list A)
    (ys : list B) :
  mapM f l = Ok ys -> Forall2 (fun x y => f x = Ok y) l ys.
Proof.
  revert ys. induction l as [| a l IH]; intros ys.
  - intros [= <-]. constructor.
  - change (mapM f (a :: l))
      with (f a ≫= fun y0 => mapM f l ≫= fun k => mret (y0 :: k)).
    destruct (f a) as [y | e] eqn:Ey; [| discriminate].
    destruct (mapM f l) as [k | e] eqn:Ek; [| discriminate].
    intros [= <-]. constructor; [exact Ey | apply IH; reflexivity].
Qed.

(** X20. [searchLessons] neither drops nor reorders what Prisma returns:
    when it returns, there is one summary per row found, in the same order
    and with the row's id, title and price, and the total is the count for
    the same filters. It throws exactly when a row came without its
    instructor. *)
Theorem searchLessons_keeps_rows
    (findMany : FindManyArgs -> list LessonWithRelations)
    (count : LessonWhereInput -> Z)
    (filters : LessonSearchFilters) (sort : LessonSortOptions)
    (caller : option UserSession) :
  let searched := LessonService.searchFilters filters caller in
  let rows :=
    findMany (LessonRepository.searchLessonsQuery searched sort) in
  (forall found total,
     LessonService.searchLessons findMany count filters sort caller
     = Ok (found, total) ->
     total = count (LessonRepository.buildWhere searched)
     /\ Forall2 (fun raw summary =>
                   summary_id summary = lesson_id (row raw)
                   /\ summary_title summary = lesson_title (row raw)
                   /\ summary_price summary = lesson_price (row raw))
                rows found)
  /\ (isOk (LessonService.searchLessons findMany count filters sort caller)
      = true
      <-> forall raw, raw ∈ rows -> is_Some (rel_instructor raw)).
Proof.
  intros searched rows. subst searched rows.
  unfold LessonService.searchLessons.
  set (rows := findMany _).
  split.
  - intros found total.
    destruct (mapM LessonService.transformToLessonSummary rows)
      as [ls |] eqn:E; [| discriminate].
    simpl. intros [= <- <-]. split; [reflexivity |].
    apply mapM_Result_inv in E.
    eapply Forall2_impl; [exact E |].
    intros raw summary H. unfold LessonService.transformToLessonSummary in H.
    destruct (rel_instructor raw); [| discriminate H].
    injection H as <-. simpl. auto.
  - split.
    + destruct (mapM LessonService.transformToLessonSummary rows)
        as [ls |] eqn:E; [| discriminate].
      intros _ raw Hraw. apply mapM_Result_inv in E.
      apply list_elem_of_lookup in Hraw as [n Hn].
      destruct (Forall2_lookup_l _ _ _ _ _ E Hn) as (y & _ & Hy).
      unfold LessonService.transformToLessonSummary in Hy.
      destruct (rel_instructor raw); [eauto | discriminate Hy].
    + intros Hall.
      destruct (mapM_Result_Ok LessonService.transformToLessonSummary rows)
        as (ys & -> & _); [| reflexivity].
      intros raw Hraw. destruct (Hall raw Hraw) as [i Hi].
      unfold LessonService.transformToLessonSummary. rewrite Hi. eauto.
Qed.

(** [requireAuth] on a token that is there: it is verified. *)
Lemma requireAuth_token (verifyIdToken : string -> option UserSession)
    (t : string) :
  t <> "" ->
  requireAuth verifyIdToken (Some t)
  = match verifyIdToken t with
    | Some decodedToken => Ok decodedToken
    | None =>
        Throw (MiddlewareError
                 (mkAppError 401 "Invalid authentication token" None))
    end.
Proof.
  intros Ht. unfold requireAuth. apply truthyString_Some in Ht.
  rewrite Ht. reflexivity.
Qed.

(** X21. The order of refusals on [POST /api/lessons]: a request without a
    token, or with one that does not verify, is answered 401 whatever its
    body; a verified caller who is not an instructor is answered 403
    whatever the body; an instructor's body is then validated. Nothing is
    written in any of these cases, and the service's own role gate never
    fires behind the router: the route never answers with
    [LessonPermissionDeniedError]. *)
Theorem postLesson_refusals
    (verifyIdToken : string -> option UserSession) (db : Db)
    (newId : string) (now : Z) (token : option string)
    (body : CreateLessonApiInput) :
  let result := LessonRouter.postLesson verifyIdToken db newId now token body
  in
  (truthyString token = false ->
   result = (Throw (MiddlewareError
                      (mkAppError 401 "No authentication token provided"
                         None)), db))
  /\ (forall t, token = Some t -> t <> "" -> verifyIdToken t = None ->
        result = (Throw (MiddlewareError
                           (mkAppError 401 "Invalid authentication token"
                              None)), db))
  /\ (forall t u, token = Some t -> t <> "" -> verifyIdToken t = Some u ->
        role u <> INSTRUCTOR ->
        result = (Throw (MiddlewareError
                           (mkAppError 403 "Insufficient permissions"
                              None)), db))
  /\ (forall t u e, token = Some t -> t <> "" -> verifyIdToken t = Some u ->
        role u = INSTRUCTOR ->
        LessonRouter.validateCreateLessonRequest body = Throw e ->
        result = (Throw e, db))
  /\ (forall a b, fst result <> Throw (LessonPermissionDeniedError a b)).
Proof.
  intros result. subst result. unfold LessonRouter.postLesson.
  split; [| split; [| split; [| split]]].
  - intros Hno. unfold requireAuth. rewrite Hno. reflexivity.
  - intros t -> Ht Hv. rewrite (requireAuth_token _ t Ht), Hv. reflexivity.
  - intros t u -> Ht Hv Hr. rewrite (requireAuth_token _ t Ht), Hv.
    destruct (requireRole ["INSTRUCTOR"] (Some u)) as [[] | e] eqn:Er.
    + apply requireRole_instructor in Er as (u' & [= <-] & Hi).
      contradiction.
    + unfold requireRole in Er.
      destruct (negb (bool_decide (Role_literal (role u)
                                   ∈ ["INSTRUCTOR"])));
        [injection Er as <-; reflexivity | discriminate Er].
  - intros t u e -> Ht Hv Hr Hb. rewrite (requireAuth_token _ t Ht), Hv.
    rewrite (proj2 (requireRole_instructor (Some u)))
      by (exists u; auto).
    rewrite Hb. reflexivity.
  - intros a b.
    destruct (requireAuth verifyIdToken token) as [u | e] eqn:Ea.
    2:{ unfold requireAuth in Ea.
        destruct (negb (truthyString token));
          [injection Ea as <-; discriminate |].
        destruct (verifyIdToken (default "" token));
          [discriminate Ea | injection Ea as <-; discriminate]. }
    destruct (requireRole ["INSTRUCTOR"] (Some u)) as [[] | e] eqn:Er.
    2:{ unfold requireRole in Er.
        destruct (negb (bool_decide (Role_literal (role u)
                                     ∈ ["INSTRUCTOR"])));
          [injection Er as <-; discriminate | discriminate Er]. }
    apply requireRole_instructor in Er as (u' & [= <-] & Hr).
    destruct (LessonRouter.validateCreateLessonRequest body)
      as [body' | e] eqn:Ev.
    2:{ unfold LessonRouter.validateCreateLessonRequest in Ev.
        repeat (match type of Ev with
                | (if ?c then _ else _) = _ => destruct c
                end; [unfold LessonRouter.validationError in Ev;
                      injection Ev as <-; discriminate |]).
        discriminate Ev. }
    intros H. apply createLesson_throws in H as [H | [[_ H] | H]].
    + destruct (validateLessonInput_cases
                  (mkCreateLessonInput (body_title body')
                     (body_description body') (body_price body')
                     (body_category body') (uid u)))
        as [[_ E] | [(_ & _ & E) | [(_ & _ & _ & E) | (_ & _ & _ & E)]]];
        rewrite E in H; try discriminate H.
      unfold LessonService.validatePrice in H.
      destruct ((_ <? 100) || (_ >? 99999)); discriminate H.
    + contradiction.
    + discriminate H.
Qed.

Lemma postLesson_refusals_witness :
  LessonRouter.postLesson Sample.verifyIdToken Sample.db "L9" 40
    (Some "token-U2") (mkCreateLessonApiInput "" None 5 None)
  = (Throw (MiddlewareError
              (mkAppError 403 "Insufficient permissions" None)), Sample.db).
Proof.
  apply (proj1 (proj2 (proj2 (postLesson_refusals Sample.verifyIdToken
                                Sample.db "L9" 40 (Some "token-U2")
                                (mkCreateLessonApiInput "" None 5 None))))
           "token-U2" Sample.studentU2);
    first [ reflexivity | discriminate ].
Defined.

Lemma searchLessons_keeps_rows_witness :
  isOk (LessonService.searchLessons
          (fun _ => [LessonRepository.withListedRelations Sample.db
                       ("L2", Sample.L2)])
          (fun _ => 1)
          (mkLessonSearchFilters None None None None None None None None)
          (mkLessonSortOptions "createdAt" desc) None) = true.
Proof.
  apply (proj2 (searchLessons_keeps_rows
                  (fun _ => [LessonRepository.withListedRelations Sample.db
                               ("L2", Sample.L2)])
                  (fun _ => 1)
                  (mkLessonSearchFilters None None None None None None None
                     None)
                  (mkLessonSortOptions "createdAt" desc) None)).
  intros raw Hraw. apply elem_of_cons in Hraw as [-> | Hraw];
    [eexists; reflexivity | inversion Hraw].
Defined.

(** X22. Listing and viewing agree: every lesson that
    [getLessonsByInstructor] lists for a caller, [getLessonById] returns to
    the same caller, with the same statistics. *)
Theorem listed_lessons_are_viewable (db : Db) (i : string) (incl : bool)
    (caller : option UserSession) (listed : list LessonWithStats) :
  keysAreIds db -> instructorsExist db ->
  LessonService.getLessonsByInstructor db i incl caller = Ok listed ->
  forall dto, dto ∈ listed ->
    exists view,
      LessonService.getLessonById db (dto_id (base dto)) caller = Ok view
      /\ dto_id (base (lesson view)) = dto_id (base dto)
      /\ stats (lesson view) = stats dto.
Proof.
  intros Hk Hfk Hok dto Hdto.
  destruct (getLessonsByInstructor_listed db i incl caller Hfk)
    as (listed' & Hok' & Hlisted & _).
  rewrite Hok in Hok'. injection Hok' as <-.
  destruct (Hlisted dto Hdto) as (k & l & Hl & Hi & Hid & _ & Hst & Hunpub).
  pose proof (Hk k l Hl) as Hkey. simpl in Hkey.
  rewrite Hid, Hkey.
  destruct (getLessonById_granted db k l caller Hl (Hfk k l Hl))
    as (view & Hview & Hvid & _).
  { destruct (lesson_published l) eqn:Hp; [left; reflexivity |].
    right. destruct (Hunpub eq_refl) as (_ & u & Hu & Hauth).
    exists u. split; [exact Hu |].
    destruct Hauth as [H | H]; [left; congruence | right; exact H]. }
  exists view. split; [exact Hview |]. split; [congruence |].
  apply getLessonById_Ok_inv in Hview as [_ Hs]. rewrite Hs, Hst, Hkey.
  reflexivity.
Qed.

Lemma listed_lessons_are_viewable_witness :
  exists listed,
    LessonService.getLessonsByInstructor Sample.db "U1" true
      (Some Sample.admin1) = Ok listed
    /\ forall dto, dto ∈ listed ->
         exists view,
           LessonService.getLessonById Sample.db (dto_id (base dto))
             (Some Sample.admin1) = Ok view
           /\ dto_id (base (lesson view)) = dto_id (base dto)
           /\ stats (lesson view) = stats dto.
Proof.
  destruct (LessonService.getLessonsByInstructor Sample.db "U1" true
              (Some Sample.admin1)) as [listed | e] eqn:E;
    [| discriminate E].
  exists listed. split; [reflexivity |].
  apply (listed_lessons_are_viewable Sample.db "U1" true (Some Sample.admin1)
           listed sample_keysAreIds sample_instructorsExist E).
Defined.

(** X23. [findByIds] returns exactly the lessons stored under one of the
    keys asked for: a key that no lesson has is passed over without error, a
    key asked for twice gives its lesson once, so there are never more
    lessons than keys; no key gives no lesson. *)
Theorem findByIds_found (db : Db) (lessonIds : list string)
    (options : LessonQueryOptions) :
  let found := LessonRepository.findByIds db lessonIds options in
  (forall l,
     l ∈ row <$> found
     <-> exists k, k ∈ lessonIds /\ lessons db !! k = Some l)
  /\ (length found <= length lessonIds)%nat
  /\ (lessonIds = [] -> found = [])
  /\ ((forall k, k ∈ lessonIds -> lessons db !! k = None) -> found = []).
Proof.
  intros found. subst found. unfold LessonRepository.findByIds.
  set (load := fun kl : string * Lesson => _).
  assert (Hm : forall l,
    l ∈ row <$> (load <$> filter (fun kl : string * Lesson =>
                                    kl.1 ∈ lessonIds)
                                 (map_to_list (lessons db)))
    <-> exists k, k ∈ lessonIds /\ lessons db !! k = Some l).
  { intros l. rewrite <- list_fmap_compose, list_elem_of_fmap. split.
    - intros ([k x] & -> & H). apply list_elem_of_filter in H as [Hk H].
      apply elem_of_map_to_list in H. exists k. auto.
    - intros (k & Hk & Hl). exists (k, l). split; [reflexivity |].
      apply list_elem_of_filter. split; [exact Hk |].
      apply elem_of_map_to_list. exact Hl. }
  assert (Hnone : (forall k, k ∈ lessonIds -> lessons db !! k = None) ->
            load <$> filter (fun kl : string * Lesson => kl.1 ∈ lessonIds)
                            (map_to_list (lessons db)) = []).
  { intros Hno. rewrite filter_none; [reflexivity |].
    intros [k l] H Hk. apply elem_of_map_to_list in H.
    rewrite (Hno k Hk) in H. discriminate H. }
  split; [exact Hm |]. split; [| split; [| exact Hnone]].
  - rewrite length_fmap.
    rewrite <- (length_fmap fst
                  (filter (fun kl : string * Lesson => kl.1 ∈ lessonIds)
                          (map_to_list (lessons db)))).
    apply submseteq_length, NoDup_submseteq.
    + apply (NoDup_fmap_2_strong fst).
      * intros [k1 l1] [k2 l2] H1 H2 Hk. simpl in Hk. subst k2.
        apply list_elem_of_filter in H1 as [_ H1].
        apply list_elem_of_filter in H2 as [_ H2].
        apply elem_of_map_to_list in H1, H2. congruence.
      * apply NoDup_filter, NoDup_map_to_list.
    + intros k Hk. apply list_elem_of_fmap in Hk as ([k' l] & -> & H).
      apply list_elem_of_filter in H as [H _]. exact H.
  - intros ->. apply Hnone. intros k Hk. inversion Hk.
Qed.

Lemma findByIds_found_witness :
  LessonRepository.findByIds Sample.db ["L7"; "L8"]
    (mkLessonQueryOptions true true false false) = [].
Proof.
  apply (proj2 (proj2 (proj2 (findByIds_found Sample.db ["L7"; "L8"]
                                (mkLessonQueryOptions true true false
                                   false))))).
  intros k Hk.
  apply elem_of_cons in Hk as [-> | Hk]; [reflexivity |].
  apply elem_of_cons in Hk as [-> | Hk]; [reflexivity | inversion Hk].
Defined.

Lemma existence_queries_witness :
  LessonRepository.isLessonOwnedByInstructor Sample.db "L1" "U1" = true
  /\ LessonRepository.existsById Sample.db "L1" = true.
Proof.
  assert (H : LessonRepository.isLessonOwnedByInstructor Sample.db "L1" "U1"
              = true).
  { apply (proj1 (proj2 (proj2 (existence_queries Sample.db "L1"))) "U1").
    exists Sample.L1. split; reflexivity. }
  split; [exact H |].
  exact (proj2 (proj2 (proj2 (existence_queries Sample.db "L1"))) "U1" H).
Defined.
